(** * music_fsl: the embedding backbone and the prototypical head

    A shallow embedding of [music_fsl/backbone.py] (ConvBlock, Backbone,
    count_parameters) and of the prototypical classification head that
    [music_fsl/train.py] imports.

    Tensors are a shape (a list of sizes) together with their elements in
    row-major order.  The scalar type and the numeric kernels of the torch
    and torchaudio layers (short-time Fourier transform, convolution, group
    normalisation, ...) are an interface, [TorchKernels]; what each layer
    does to the SHAPE of its input, and when it raises, is written out.
    Python exceptions are the [Raise] results of a small state-and-error
    monad whose store holds the module object ([self]), the process-wide
    random generator and a log of the layer calls that completed. *)

From Stdlib Require Import List NArith ZArith QArith Bool String Lia Lqa.
From Stdlib Require Import Permutation Ascii.
Import ListNotations.

Set Implicit Arguments.
Set Maximal Implicit Insertion.
Open Scope N_scope.

(** ** Exceptions and results *)

Inductive exn : Type :=
| AssertionError (msg : string)
| IndexError (msg : string)
| RuntimeError (msg : string)
| ValueError (msg : string).

Inductive result (A : Type) : Type :=
| Ok (a : A)
| Raise (e : exn).
Arguments Ok {A} a.
Arguments Raise {A} e.

Definition result_map {A B : Type} (f : A -> B) (r : result A) : result B :=
  match r with
  | Ok a => Ok (f a)
  | Raise e => Raise e
  end.

Definition is_assertion_error {A : Type} (r : result A) : bool :=
  match r with
  | Raise (AssertionError _) => true
  | _ => false
  end.

(** ** Shapes *)

(** [torch.Size.numel]: the product of the sizes. *)
Definition shape_numel (sh : list N) : N := fold_right N.mul 1 sh.

(** The sizes before the last axis, and the last axis ([shape[:-1]] and
    [shape[-1]]). *)
Definition lead_dims (sh : list N) : list N := removelast sh.
Definition last_dim (sh : list N) : N := last sh 0.

(** Messages of the exceptions the layers raise. *)
Definition msg_rank : string :=
  "Expected a batch of audio samples shape (batch, channels, samples)".
Definition msg_mono : string := "Expected a mono audio signal".
Definition msg_pad : string :=
  "Padding size should be less than the corresponding input dimension".
Definition msg_stft : string := "stft: expected a tensor with a time axis".
Definition msg_reshape : string :=
  "cannot reshape tensor of 0 elements into shape [-1, 0]".
Definition msg_empty : string :=
  "Expected 2D or 3D (batch mode) tensor with possibly 0 batch size and other non-zero dimensions for input".
Definition msg_conv_rank : string :=
  "Expected 3D (unbatched) or 4D (batched) input to conv2d".
Definition msg_conv_channels : string :=
  "conv2d: input channels do not match the weight".
Definition msg_conv_same : string :=
  "padding='same' is not supported for strided convolutions".
Definition msg_conv_small : string :=
  "Kernel size can't be greater than actual input size".
Definition msg_gn_rank : string :=
  "Expected at least 2 dimensions for input tensor".
Definition msg_gn_channels : string :=
  "Expected number of channels in input to be divisible by num_groups".
Definition msg_gn_batch : string :=
  "Expected more than 1 value per channel when training".
Definition msg_pool_rank : string :=
  "max_pool2d: expected a 3D or 4D input".
Definition msg_pool_small : string := "Output size is too small".
Definition msg_index : string := "tuple index out of range".

Section Model.

(** The scalar type of tensor elements (a floating-point format in torch). *)
Variable F : Type.

(** ** Tensors, parameters and layer objects *)

Record Tensor : Type := mkTensor {
  shape : list N;
  data : list F
}.

Definition ndim (x : Tensor) : nat := List.length (shape x).
Definition numel (x : Tensor) : N := shape_numel (shape x).

(** [nn.Parameter]: a tensor and its [requires_grad] flag. *)
Record NnParameter : Type := mkNnParameter {
  p_value : Tensor;
  requires_grad : bool
}.

Inductive padding_mode : Type :=
| PadSame
| PadValid
| PadInt (p : N).

(** [nn.Conv2d(in_channels, out_channels, kernel_size, stride, padding)]. *)
Record Conv2d : Type := mkConv2d {
  in_channels : N;
  out_channels : N;
  kernel_size : N;
  stride : N;
  padding : padding_mode;
  weight : NnParameter;
  bias : NnParameter
}.

(** [nn.GroupNorm(num_groups, num_channels)]. *)
Record GroupNorm : Type := mkGroupNorm {
  num_groups : N;
  num_channels : N;
  gn_weight : NnParameter;
  gn_bias : NnParameter
}.

(** [nn.MaxPool2d(kernel_size)]: the stride defaults to the kernel size,
    no padding, no dilation, floor mode. *)
Record MaxPool2d : Type := mkMaxPool2d {
  pool_size : N
}.

(** [torchaudio.transforms.MelSpectrogram]. *)
Record MelSpectrogram : Type := mkMelSpectrogram {
  mel_sample_rate : Z;
  n_fft : N;
  win_length : N;
  hop_length : N;
  n_mels : N;
  center : bool
}.

(** The numeric kernels of the layers: given the layer object and the
    input, the elements of the output. *)
Class TorchKernels : Type := {
  fzero : F;
  fadd : F -> F -> F;
  fdiv : F -> N -> F;
  mel_k : MelSpectrogram -> Tensor -> list F;
  conv2d_k : Conv2d -> Tensor -> list F;
  group_norm_k : GroupNorm -> Tensor -> list F;
  relu_k : F -> F;
  max_pool2d_k : MaxPool2d -> Tensor -> list F
}.

Context {K : TorchKernels}.

(** ** The layers: shape, errors, elements *)

(** Frames of the short-time Fourier transform.  The waveform is first
    reshaped to [(-1, s)], which torch refuses for [s = 0].  With [center]
    the signal is then reflect-padded by [n_fft / 2] on both sides, which
    torch refuses for an empty batch, and unless the padding is shorter
    than the signal. *)
Definition MelSpectrogram_forward (m : MelSpectrogram) (x : Tensor)
  : result Tensor :=
  match shape x with
  | [] => Raise (RuntimeError msg_stft)
  | _ :: _ =>
      let s := last_dim (shape x) in
      if s =? 0 then Raise (RuntimeError msg_reshape)
      else if center m then
        if shape_numel (lead_dims (shape x)) =? 0
        then Raise (RuntimeError msg_empty)
        else if s <=? n_fft m / 2 then Raise (RuntimeError msg_pad)
        else Ok (mkTensor
                   (lead_dims (shape x) ++ [n_mels m; 1 + s / hop_length m])
                   (mel_k m x))
      else
        if s <? n_fft m then Raise (RuntimeError msg_stft)
        else Ok (mkTensor
                   (lead_dims (shape x)
                      ++ [n_mels m; 1 + (s - n_fft m) / hop_length m])
                   (mel_k m x))
  end.

(** Output size of a convolution along one axis.  With 'same' padding
    the padded size is [n + kernel_size - 1], which is less than the
    kernel exactly when the axis is empty. *)
Definition conv_out_size (c : Conv2d) (n : N) : result N :=
  match padding c with
  | PadSame =>
      if stride c =? 1 then
        if n =? 0 then Raise (RuntimeError msg_conv_small) else Ok n
      else Raise (ValueError msg_conv_same)
  | PadValid =>
      if n <? kernel_size c then Raise (RuntimeError msg_conv_small)
      else Ok ((n - kernel_size c) / stride c + 1)
  | PadInt p =>
      if n + 2 * p <? kernel_size c then Raise (RuntimeError msg_conv_small)
      else Ok ((n + 2 * p - kernel_size c) / stride c + 1)
  end.

Definition Conv2d_forward (c : Conv2d) (x : Tensor) : result Tensor :=
  let spatial (pre : list N) (ch h w : N) :=
    if ch =? in_channels c then
      match conv_out_size c h with
      | Raise e => Raise e
      | Ok h' =>
          match conv_out_size c w with
          | Raise e => Raise e
          | Ok w' => Ok (mkTensor (pre ++ [out_channels c; h'; w'])
                                  (conv2d_k c x))
          end
      end
    else Raise (RuntimeError msg_conv_channels) in
  match shape x with
  | [n; ch; h; w] => spatial [n] ch h w
  | [ch; h; w] => spatial [] ch h w
  | _ => Raise (RuntimeError msg_conv_rank)
  end.

(** [F.group_norm]: the rank check, then [_verify_batch_size] on
    [[size(0) * size(1) // num_groups, num_groups] + size()[2:]], whose
    product skips the entry at index 1. *)
Definition GroupNorm_forward (g : GroupNorm) (x : Tensor) : result Tensor :=
  match shape x with
  | n :: ch :: rest =>
      if ch =? num_channels g then
        if (n * ch / num_groups g) * shape_numel rest =? 1
        then Raise (ValueError msg_gn_batch)
        else Ok (mkTensor (shape x) (group_norm_k g x))
      else Raise (RuntimeError msg_gn_channels)
  | _ => Raise (RuntimeError msg_gn_rank)
  end.

Definition ReLU_forward (x : Tensor) : result Tensor :=
  Ok (mkTensor (shape x) (map relu_k (data x))).

(** [nn.MaxPool2d(k)]: each spatial size [n] becomes [n // k]; torch raises
    when that is zero. *)
Definition MaxPool2d_forward (p : MaxPool2d) (x : Tensor) : result Tensor :=
  let spatial (pre : list N) (h w : N) :=
    let h' := h / pool_size p in
    let w' := w / pool_size p in
    if (h' =? 0) || (w' =? 0) then Raise (RuntimeError msg_pool_small)
    else Ok (mkTensor (pre ++ [h'; w']) (max_pool2d_k p x)) in
  match shape x with
  | [n; ch; h; w] => spatial [n; ch] h w
  | [ch; h; w] => spatial [ch] h w
  | _ => Raise (RuntimeError msg_pool_rank)
  end.

(** Row-major elements cut into [n] rows of [t] elements. *)
Fixpoint chunks (t : nat) (n : nat) (l : list F) : list (list F) :=
  match n with
  | O => []
  | S n' => firstn t l :: chunks t n' (skipn t l)
  end.

Definition fsum (l : list F) : F := fold_left fadd l fzero.

(** The mean of each of [rows] consecutive rows of [t] elements. *)
Definition row_means (t rows : N) (d : list F) : list F :=
  map (fun row => fdiv (fsum row) t) (chunks (N.to_nat t) (N.to_nat rows) d).

(** [x.mean(dim=-1)]: the last axis is averaged away. *)
Definition Tensor_mean_last (x : Tensor) : result Tensor :=
  match shape x with
  | [] => Ok x
  | _ :: _ =>
      let t := last_dim (shape x) in
      let pre := lead_dims (shape x) in
      Ok (mkTensor pre (row_means t (shape_numel pre) (data x)))
  end.

(** [x.squeeze(-1)]: the last axis is dropped when its size is 1, and the
    tensor is returned as it is otherwise. *)
Definition Tensor_squeeze_last (x : Tensor) : result Tensor :=
  match shape x with
  | [] => Ok x
  | _ :: _ =>
      if last_dim (shape x) =? 1
      then Ok (mkTensor (lead_dims (shape x)) (data x))
      else Ok x
  end.

(** ** Module objects *)

(** [ConvBlock]: its four submodules; [nn.ReLU] has no attribute of its
    own and is not stored. *)
Record ConvBlock : Type := mkConvBlock {
  conv : Conv2d;
  gn : GroupNorm;
  maxpool : MaxPool2d
}.

Record Backbone : Type := mkBackbone {
  sample_rate : Z;
  melspec : MelSpectrogram;
  conv1 : ConvBlock;
  conv2 : ConvBlock;
  conv3 : ConvBlock;
  conv4 : ConvBlock;
  conv5 : ConvBlock
}.

(** The element values with which the four parameters of a block start
    (torch draws them at random); every parameter is created trainable. *)
Record BlockInit : Type := mkBlockInit {
  init_conv_weight : list F;
  init_conv_bias : list F;
  init_gn_weight : list F;
  init_gn_bias : list F
}.

Definition fresh_parameter (sh : list N) (d : list F) : NnParameter :=
  mkNnParameter (mkTensor sh d) true.

Definition Conv2d_init (in_ch out_ch k s : N) (p : padding_mode)
    (w b : list F) : Conv2d :=
  mkConv2d in_ch out_ch k s p
    (fresh_parameter [out_ch; in_ch; k; k] w)
    (fresh_parameter [out_ch] b).

Definition GroupNorm_init (groups channels : N) (w b : list F) : GroupNorm :=
  mkGroupNorm groups channels
    (fresh_parameter [channels] w)
    (fresh_parameter [channels] b).

(** [MelSpectrogram(n_mels=..., sample_rate=...)] with torchaudio's
    defaults: [n_fft = 400], [win_length = n_fft],
    [hop_length = win_length // 2], [center = True]. *)
Definition MelSpectrogram_init (mels : N) (rate : Z) : MelSpectrogram :=
  let nfft := 400 in
  let win := nfft in
  mkMelSpectrogram rate nfft win (win / 2) mels true.

Definition ConvBlock_init (in_ch out_ch k s : N) (p : padding_mode)
    (groups max_pool_size : N) (i : BlockInit) : ConvBlock :=
  mkConvBlock
    (Conv2d_init in_ch out_ch k s p (init_conv_weight i) (init_conv_bias i))
    (GroupNorm_init groups out_ch (init_gn_weight i) (init_gn_bias i))
    (mkMaxPool2d max_pool_size).

Definition Backbone_init (rate : Z) (init : nat -> BlockInit) : Backbone :=
  mkBackbone rate
    (MelSpectrogram_init 64 rate)
    (ConvBlock_init 1 32 3 1 PadSame 8 2 (init 1%nat))
    (ConvBlock_init 32 64 3 1 PadSame 16 2 (init 2%nat))
    (ConvBlock_init 64 128 3 1 PadSame 32 2 (init 3%nat))
    (ConvBlock_init 128 256 3 1 PadSame 64 2 (init 4%nat))
    (ConvBlock_init 256 512 1 1 PadSame 128 4 (init 5%nat)).

(** ** The store and the monad *)

(** A layer call that completed: which layer, the shape it was given and
    the shape it returned. *)
Inductive layer : Type :=
| LMelSpectrogram (mels : N)
| LConv2d (in_ch out_ch k s : N) (p : padding_mode)
| LGroupNorm (groups channels : N)
| LReLU
| LMaxPool2d (k : N)
| LMean
| LSqueeze.

Record event : Type := mkEvent {
  ev_layer : layer;
  ev_in : list N;
  ev_out : list N
}.

(** What a forward pass can see and could change: the module object, its
    [training] flag, the state of the process-wide random generator, and
    the log of completed layer calls. *)
Record Store : Type := mkStore {
  self : Backbone;
  training : bool;
  generator : N;
  calls : list event
}.

Definition M (A : Type) : Type := Store -> result A * Store.

Definition ret {A : Type} (a : A) : M A := fun st => (Ok a, st).

Definition raise {A : Type} (e : exn) : M A := fun st => (Raise e, st).

Definition bind {A B : Type} (c : M A) (k : A -> M B) : M B :=
  fun st =>
    match c st with
    | (Ok a, st') => k a st'
    | (Raise e, st') => (Raise e, st')
    end.

(** Reading an attribute of [self]. *)
Definition gets {A : Type} (f : Backbone -> A) : M A :=
  fun st => (Ok (f (self st)), st).

(** Assigning to attributes of [self], and drawing from the random
    generator, which advances it.  No statement of [backbone.py] does
    either; they are here so that the store can tell a pass that would. *)
Definition modify_self (f : Backbone -> Backbone) : M unit :=
  fun st => (Ok tt, mkStore (f (self st)) (training st) (generator st)
                            (calls st)).

Definition draw : M N :=
  fun st => (Ok (generator st),
             mkStore (self st) (training st) (generator st + 1) (calls st)).

Definition log_call (l : layer) (x y : Tensor) (st : Store) : Store :=
  mkStore (self st) (training st) (generator st)
          (calls st ++ [mkEvent l (shape x) (shape y)]).

(** Calling a layer: its exception propagates, its result is logged. *)
Definition call (l : layer) (f : Tensor -> result Tensor) (x : Tensor)
  : M Tensor :=
  fun st =>
    match f x with
    | Ok y => (Ok y, log_call l x y st)
    | Raise e => (Raise e, st)
    end.

(** The [assert cond, msg] statement, as the interpreter runs it by
    default ([__debug__] true). *)
Definition assert_ (cond : bool) (msg : string) : M unit :=
  if cond then ret tt else raise (AssertionError msg).

(** [x.shape[i]]. *)
Definition shape_item (x : Tensor) (i : nat) : M N :=
  match nth_error (shape x) i with
  | Some n => ret n
  | None => raise (IndexError msg_index)
  end.

Notation "x <- c ;; k" := (bind c (fun x => k))
  (at level 61, c at next level, right associativity).
Notation "c ;;; k" := (bind c (fun _ => k))
  (at level 61, right associativity).

(** ** Calls of the submodules of [self] *)

Definition MelSpectrogram_call (sel : Backbone -> MelSpectrogram)
    (x : Tensor) : M Tensor :=
  m <- gets sel ;;
  call (LMelSpectrogram (n_mels m)) (MelSpectrogram_forward m) x.

Definition Conv2d_call (sel : Backbone -> Conv2d) (x : Tensor) : M Tensor :=
  c <- gets sel ;;
  call (LConv2d (in_channels c) (out_channels c) (kernel_size c) (stride c)
                (padding c))
       (Conv2d_forward c) x.

Definition GroupNorm_call (sel : Backbone -> GroupNorm) (x : Tensor)
  : M Tensor :=
  g <- gets sel ;;
  call (LGroupNorm (num_groups g) (num_channels g)) (GroupNorm_forward g) x.

Definition ReLU_call (x : Tensor) : M Tensor := call LReLU ReLU_forward x.

Definition MaxPool2d_call (sel : Backbone -> MaxPool2d) (x : Tensor)
  : M Tensor :=
  p <- gets sel ;;
  call (LMaxPool2d (pool_size p)) (MaxPool2d_forward p) x.

(** ** [ConvBlock.forward] *)

Definition ConvBlock_forward (blk : Backbone -> ConvBlock) (x : Tensor)
  : M Tensor :=
  x <- Conv2d_call (fun s => conv (blk s)) x ;;
  x <- GroupNorm_call (fun s => gn (blk s)) x ;;
  x <- ReLU_call x ;;
  x <- MaxPool2d_call (fun s => maxpool (blk s)) x ;;
  ret x.

(** ** [Backbone.forward] *)

Definition Backbone_forward (x : Tensor) : M Tensor :=
  assert_ (Nat.eqb (ndim x) 3) msg_rank ;;;
  ch <- shape_item x 1 ;;
  assert_ (ch =? 1) msg_mono ;;;

  x <- MelSpectrogram_call melspec x ;;

  x <- ConvBlock_forward conv1 x ;;
  x <- ConvBlock_forward conv2 x ;;
  x <- ConvBlock_forward conv3 x ;;
  x <- ConvBlock_forward conv4 x ;;
  x <- ConvBlock_forward conv5 x ;;

  x <- call LMean Tensor_mean_last x ;;
  x <- call LSqueeze Tensor_squeeze_last x ;;
  x <- call LSqueeze Tensor_squeeze_last x ;;

  ret x.

(** ** [count_parameters] *)

(** [model.parameters()] of the modules of this file, in registration
    order; [MelSpectrogram] registers buffers only. *)
Definition Conv2d_parameters (c : Conv2d) : list NnParameter :=
  [weight c; bias c].

Definition GroupNorm_parameters (g : GroupNorm) : list NnParameter :=
  [gn_weight g; gn_bias g].

Definition ConvBlock_parameters (b : ConvBlock) : list NnParameter :=
  Conv2d_parameters (conv b) ++ GroupNorm_parameters (gn b).

Definition Backbone_parameters (m : Backbone) : list NnParameter :=
  ConvBlock_parameters (conv1 m) ++ ConvBlock_parameters (conv2 m)
  ++ ConvBlock_parameters (conv3 m) ++ ConvBlock_parameters (conv4 m)
  ++ ConvBlock_parameters (conv5 m).

(** Python's [sum] over an iterable of integers. *)
Definition py_sum (l : list N) : N := fold_left N.add l 0.

(** [sum(p.numel() for p in model.parameters() if p.requires_grad)], for a
    model given by its [parameters()]. *)
Definition count_parameters (parameters : list NnParameter) : N :=
  py_sum (map (fun p => numel (p_value p))
              (filter (fun p => requires_grad p) parameters)).

(** The trainable element count as the specification words it: each
    parameter contributes its element count when it has [requires_grad]
    and nothing when it is frozen. *)
Fixpoint trainable_elements (parameters : list NnParameter) : N :=
  match parameters with
  | [] => 0
  | p :: rest =>
      (if requires_grad p then numel (p_value p) else 0)
      + trainable_elements rest
  end.

(** ** Abbreviations used to state the properties *)

(** The store after some more completed calls. *)
Definition logged (st : Store) (evs : list event) : Store :=
  mkStore (self st) (training st) (generator st) (calls st ++ evs).

(** The calls a block logs on a batch of shape [[n; c_in; h; w]] up to
    its pooling, and the call of the pooling. *)
Definition block_events_before_pool (n c_in c_out k g h w : N)
  : list event :=
  [ mkEvent (LConv2d c_in c_out k 1 PadSame) [n; c_in; h; w] [n; c_out; h; w];
    mkEvent (LGroupNorm g c_out) [n; c_out; h; w] [n; c_out; h; w];
    mkEvent LReLU [n; c_out; h; w] [n; c_out; h; w] ].

Definition block_events (n c_in c_out k g p h w : N) : list event :=
  block_events_before_pool n c_in c_out k g h w
  ++ [ mkEvent (LMaxPool2d p) [n; c_out; h; w] [n; c_out; h / p; w / p] ].

(** Frames of the mel spectrogram of [s] samples: hop 200, centred. *)
Definition frames (s : N) : N := 1 + s / 200.

(** The time axis after the five poolings. *)
Definition pooled_frames (s : N) : N := frames s / 2 / 2 / 2 / 2 / 4.

(** The input validation, alone: the two [assert] statements. *)
Definition validate (x : Tensor) : M unit :=
  assert_ (Nat.eqb (ndim x) 3) msg_rank ;;;
  ch <- shape_item x 1 ;;
  assert_ (ch =? 1) msg_mono.

(** [forward] is the validation, then the feature extractor (the mel
    spectrogram and the five blocks), then the head (the mean and the two
    squeezes). *)
Definition features (x : Tensor) : M Tensor :=
  x <- MelSpectrogram_call melspec x ;;
  x <- ConvBlock_forward conv1 x ;;
  x <- ConvBlock_forward conv2 x ;;
  x <- ConvBlock_forward conv3 x ;;
  x <- ConvBlock_forward conv4 x ;;
  ConvBlock_forward conv5 x.

Definition head (x : Tensor) : M Tensor :=
  x <- call LMean Tensor_mean_last x ;;
  x <- call LSqueeze Tensor_squeeze_last x ;;
  x <- call LSqueeze Tensor_squeeze_last x ;;
  ret x.

Definition layers (x : Tensor) : M Tensor :=
  feat <- features x ;; head feat.

(** The calls of the last three statements of [forward] on a feature map
    of shape [[b; 512; 1; t]]. *)
Definition head_events (b t : N) : list event :=
  [ mkEvent LMean [b; 512; 1; t] [b; 512; 1];
    mkEvent LSqueeze [b; 512; 1] [b; 512];
    mkEvent LSqueeze [b; 512] [b; 512] ].

(** The call of the mel spectrogram on a batch of shape [[b; 1; s]]. *)
Definition mel_event (b s : N) : event :=
  mkEvent (LMelSpectrogram 64) [b; 1; s] [b; 1; 64; frames s].

(** Every call of the feature extractor when it returns, in order. *)
Definition features_events (b s : N) : list event :=
  let t := frames s in
  mel_event b s
  :: block_events b 1 32 3 8 2 64 t
  ++ block_events b 32 64 3 16 2 32 (t / 2)
  ++ block_events b 64 128 3 32 2 16 (t / 2 / 2)
  ++ block_events b 128 256 3 64 2 8 (t / 2 / 2 / 2)
  ++ block_events b 256 512 1 128 4 4 (t / 2 / 2 / 2 / 2).

(** Every call of a forward pass that returns, in order. *)
Definition forward_events (b s : N) : list event :=
  features_events b s ++ head_events b (pooled_frames s).

(** What a constructed [Backbone] answers to an input of shape [sh]: the
    shape of the embedding, or the exception. *)
Definition forward_shape (sh : list N) : result (list N) :=
  match sh with
  | [b; c; s] =>
      if c =? 1 then
        if s =? 0 then Raise (RuntimeError msg_reshape)
        else if b =? 0 then Raise (RuntimeError msg_empty)
        else if s <=? 200 then Raise (RuntimeError msg_pad)
        else if s <? 12600 then Raise (RuntimeError msg_pool_small)
        else Ok [b; 512]
      else Raise (AssertionError msg_mono)
  | _ => Raise (AssertionError msg_rank)
  end.

(** A computation that only reads [self]: its result and the calls it logs
    are the same from any two stores that hold the same module object, and
    it changes the store by logging calls only. *)
Definition reads_only {A : Type} (c : M A) : Prop :=
  forall st1 st2,
    self st1 = self st2 ->
    fst (c st1) = fst (c st2)
    /\ exists evs,
         snd (c st1) = logged st1 evs /\ snd (c st2) = logged st2 evs.

Definition is_pool (e : event) : bool :=
  match ev_layer e with LMaxPool2d _ => true | _ => false end.

Definition is_squeeze (e : event) : bool :=
  match ev_layer e with LSqueeze => true | _ => false end.

(** The size of the frequency axis (index 2) of a four-axis shape. *)
Definition freq_axis (sh : list N) : N := nth 2 sh 0.

(** The blocks of a backbone in the order [forward] applies them, and what
    [__init__] configured of each: channels in and out, stride, padding,
    normalised channels, pooling size. *)
Definition blocks (m : Backbone) : list ConvBlock :=
  [conv1 m; conv2 m; conv3 m; conv4 m; conv5 m].


(** An audio clip: the waveform tensor that [forward] is given, and the
    rate at which it was really sampled, which no tensor carries. *)
Record AudioClip : Type := mkAudioClip {
  waveform : Tensor;
  clip_sample_rate : Z
}.

End Model.

Arguments fzero {F _}.
Arguments fadd {F _} _ _.
Arguments fdiv {F _} _ _.
Arguments mel_k {F _} _ _.
Arguments conv2d_k {F _} _ _.
Arguments group_norm_k {F _} _ _.
Arguments relu_k {F _} _.
Arguments max_pool2d_k {F _} _ _.
Arguments ret {F A} a.
Arguments raise {F A} e.
Arguments assert_ {F} cond msg.

(** ** The prototypical head *)

Module PrototypicalNet.

Local Open Scope Q_scope.

Section Head.

(** The audio of one example, and the embedding network the head is built
    around (in [train.py], [PrototypicalNet(backbone)]). *)
Variable Audio : Type.
Variable backbone : Audio -> list Q.

(** Modelled from the spec: [music_fsl/protonet.py] (PrototypicalNet) is
    imported by [train.py] and is not among the sources.  The sum of two
    embeddings, for the mean of the support embeddings of a class. *)
Definition vadd (u v : list Q) : list Q :=
  map (fun p => fst p + snd p) (combine u v).

(** Modelled from the spec: [music_fsl/protonet.py] is missing; an
    embedding scaled, for the mean. *)
Definition vscale (k : Q) (v : list Q) : list Q := map (Qmult k) v.

(** Modelled from the spec: [music_fsl/protonet.py] is missing; "the mean
    of that class's support embeddings", of however many there are. *)
Definition mean_embedding (vs : list (list Q)) : list Q :=
  match vs with
  | [] => []
  | v :: rest =>
      vscale (1 / inject_Z (Z.of_nat (List.length vs))) (fold_left vadd rest v)
  end.

(** Modelled from the spec: [music_fsl/protonet.py] is missing; "runs the
    Backbone on support audio to obtain embeddings", here those of the
    support examples labelled [c]. *)
Definition class_embeddings (support : list (Audio * nat)) (c : nat)
  : list (list Q) :=
  map (fun ex => backbone (fst ex))
      (filter (fun ex => Nat.eqb (snd ex) c) support).

(** Modelled from the spec: [music_fsl/protonet.py] is missing; "one
    prototype per class: the mean of that class's support embeddings". *)
Definition prototype (support : list (Audio * nat)) (c : nat) : list Q :=
  mean_embedding (class_embeddings support c).

(** Modelled from the spec: [music_fsl/protonet.py] is missing; the
    prototypes of the classes [0 .. n_way - 1]. *)
Definition prototypes (n_way : nat) (support : list (Audio * nat))
  : list (list Q) :=
  map (prototype support) (seq 0 n_way).

(** Modelled from the spec: [music_fsl/protonet.py] is missing; the
    squared Euclidean distance. *)
Definition sq_dist (u v : list Q) : Q :=
  fold_right Qplus 0
    (map (fun p => (fst p - snd p) * (fst p - snd p)) (combine u v)).

(** Modelled from the spec: [music_fsl/protonet.py] is missing; "a logit
    per class as the negative squared Euclidean distance to each
    prototype". *)
Definition logit (q p : list Q) : Q := - sq_dist q p.

(** Modelled from the spec: [music_fsl/protonet.py] is missing; the
    forward pass of the head: one row of logits per query example, one
    logit per class. *)
Definition forward (n_way : nat) (support : list (Audio * nat))
    (query : list Audio) : list (list Q) :=
  map (fun a => map (logit (backbone a)) (prototypes n_way support)) query.

End Head.

End PrototypicalNet.

(** ** Concrete inputs *)

(** Kernels over the integers that return zeros, as many as the output
    shape of the layer holds: enough to run the model on concrete
    batches. *)
Definition zeros (n : N) : list Z := repeat 0%Z (N.to_nat n).

#[export] Instance zero_kernels : TorchKernels Z := {|
  fzero := 0%Z;
  fadd := Z.add;
  fdiv := fun a n => (a / Z.of_N n)%Z;
  mel_k := fun m x =>
    zeros (shape_numel (lead_dims (shape x)) * n_mels m
           * (1 + last_dim (shape x) / hop_length m));
  conv2d_k := fun c x =>
    match shape x with
    | [n; _; h; w] => zeros (n * out_channels c * h * w)
    | _ => []
    end;
  group_norm_k := fun _ x => data x;
  relu_k := Z.max 0;
  max_pool2d_k := fun p x =>
    match shape x with
    | [n; c; h; w] => zeros (n * c * (h / pool_size p) * (w / pool_size p))
    | _ => []
    end
|}.

Definition zero_init (i : nat) : BlockInit Z := mkBlockInit [] [] [] [].

(** A freshly built [Backbone(sample_rate=16000)], and the same module
    object later: in evaluation mode, the generator advanced, a call
    logged. *)
Definition example_store : Store Z :=
  mkStore (Backbone_init 16000 zero_init) true 0 [].

Definition example_store_later : Store Z :=
  mkStore (Backbone_init 16000 zero_init) false 7
          [mkEvent LReLU [1; 1] [1; 1]].

(** Four clips of one channel and 16000 samples; a stereo batch; a batch
    without its channel axis; the shortest clip that is embedded. *)
Definition example_batch : Tensor Z := mkTensor [4; 1; 16000] (zeros 64000).
Definition example_stereo : Tensor Z := mkTensor [4; 2; 16000] (zeros 128000).
Definition example_flat : Tensor Z := mkTensor [4; 16000] (zeros 64000).
Definition example_short : Tensor Z := mkTensor [1; 1; 12600] (zeros 12600).

(** A clip of 1000 samples (6 frames) and one of 100 samples. *)
Definition example_6_frames : Tensor Z := mkTensor [1; 1; 1000] (zeros 1000).
Definition example_100_samples : Tensor Z := mkTensor [1; 1; 100] (zeros 100).

(** The batch, recorded at 44100 Hz. *)
Definition example_clip : AudioClip Z := mkAudioClip example_batch 44100.

(** A trainable parameter of 6 elements and a frozen one of 4. *)
Definition example_parameters : list (NnParameter Z) :=
  [ mkNnParameter (mkTensor [2; 3] (zeros 6)) true;
    mkNnParameter (mkTensor [4] (zeros 4)) false ].

(** An episode of two classes over four clips: clips 0 and 1 are the
    support of class 0, clip 2 is the support of class 1, and clip 3 is
    the query, embedded at the prototype of class 0. *)
Definition example_backbone (a : nat) : list Q :=
  match a with
  | 0%nat => [1; 0]
  | 1%nat => [3; 0]
  | 2%nat => [0; 4]
  | _ => [2; 0]
  end%Q.

Definition example_support : list (nat * nat) :=
  [(0, 0); (1, 0); (2, 1)]%nat.


(** ** Too short a clip *)

(** The block in whose pooling a pass stops when the clip has too few
    frames: the first block whose pooled time axis would be empty. *)
Definition failing_block (s : N) : nat :=
  if frames s <? 4 then 2
  else if frames s <? 8 then 3
  else if frames s <? 16 then 4
  else 5.

(** ** [train.py] *)

Module Train.

Definition TRAIN_INSTRUMENTS : list string :=
  [ "French Horn"; "Violin"; "Flute"; "Contrabass"; "Trombone"; "Cello";
    "Clarinet in Bb"; "Oboe"; "Accordion" ]%string.

Definition TEST_INSTRUMENTS : list string :=
  [ "Bassoon"; "Viola"; "Trumpet in C"; "Bass Tuba"; "Alto Saxophone" ]%string.

(** What can go wrong in a step besides an exception of the network: a
    key missing from a dict. *)
Inductive py_error : Type :=
| KeyError (key : string)
| Raised (e : exn).

Inductive outcome (A : Type) : Type :=
| Done (a : A)
| Failed (e : py_error).
Arguments Done {A} a.
Arguments Failed {A} e.

(** A Python dict with string keys: its items in insertion order. *)
Definition pydict (A : Type) : Type := list (string * A).

(** [d[k]], as an option. *)
Fixpoint dict_get {A : Type} (k : string) (d : pydict A) : option A :=
  match d with
  | [] => None
  | (k', v) :: rest => if String.eqb k' k then Some v else dict_get k rest
  end.

(** [d[k] = v]: a key already there keeps its place and takes the new
    value, a new key goes last. *)
Fixpoint dict_set {A : Type} (k : string) (v : A) (d : pydict A) : pydict A :=
  match d with
  | [] => [(k, v)]
  | (k', v') :: rest =>
      if String.eqb k' k then (k', v) :: rest
      else (k', v') :: dict_set k v rest
  end.

(** The tags that [training_step], [validation_step] and [test_step] give
    to [step]. *)
Definition step_tags : list string := ["train"; "val"; "test"]%string.

(** The name [f"{k}/{tag}"] under which a value is logged. *)
Definition log_name (k tag : string) : string := (k ++ "/" ++ tag)%string.

Section Learner.

(** The support set of an episode, tensors, logits, and the scalars that
    losses and metrics return. *)
Variables Support T Logits V : Type.

(** [FewShotLearner]: the network, the learning rate, the loss and the
    dict of metrics.  The network, the loss and each metric are callables
    that return or raise. *)
Record FewShotLearner : Type := mkFewShotLearner {
  protonet : Support -> pydict T -> result Logits;
  learning_rate : Q;
  loss : Logits -> T -> result V;
  metrics : pydict (Logits -> T -> result V)
}.

(** [nn.CrossEntropyLoss()] and [torchmetrics.Accuracy()]. *)
Variable CrossEntropyLoss : Logits -> T -> result V.
Variable Accuracy : Logits -> T -> result V.

Definition FewShotLearner_init
    (net : Support -> pydict T -> result Logits) (lr : Q) : FewShotLearner :=
  mkFewShotLearner net lr CrossEntropyLoss [("accuracy"%string, Accuracy)].

(** A step computes, and logs through [self.log]: the state is the list of
    the (name, value) pairs logged so far. *)
Definition Lg (A : Type) : Type :=
  list (string * V) -> outcome A * list (string * V).

Definition lret {A : Type} (a : A) : Lg A := fun lg => (Done a, lg).

Definition lfail {A : Type} (e : py_error) : Lg A := fun lg => (Failed e, lg).

Definition lbind {A B : Type} (c : Lg A) (k : A -> Lg B) : Lg B :=
  fun lg =>
    match c lg with
    | (Done a, lg') => k a lg'
    | (Failed e, lg') => (Failed e, lg')
    end.

(** Calling the network, the loss or a metric. *)
Definition lcall {A : Type} (r : result A) : Lg A :=
  match r with
  | Ok a => lret a
  | Raise e => lfail (Raised e)
  end.

(** [d[k]] in an expression. *)
Definition getitem {A : Type} (d : pydict A) (k : string) : Lg A :=
  match dict_get k d with
  | Some v => lret v
  | None => lfail (KeyError k)
  end.

(** [self.log(name, value)]. *)
Definition log (name : string) (v : V) : Lg unit :=
  fun lg => (Done tt, lg ++ [(name, v)]).

Notation "x <- c ;; k" := (lbind c (fun x => k))
  (at level 61, c at next level, right associativity).

(** [for k, metric in self.metrics.items():
       output[k] = metric(logits, query["target"])]. *)
Fixpoint metrics_loop (ms : pydict (Logits -> T -> result V))
    (logits : Logits) (query : pydict T) (output : pydict V)
  : Lg (pydict V) :=
  match ms with
  | [] => lret output
  | (k, metric) :: rest =>
      target <- getitem query "target" ;;
      v <- lcall (metric logits target) ;;
      metrics_loop rest logits query (dict_set k v output)
  end.

(** [for k, v in output.items(): self.log(f"{k}/{tag}", v)]. *)
Fixpoint log_loop (items : pydict V) (tag : string) : Lg unit :=
  match items with
  | [] => lret tt
  | (k, v) :: rest =>
      _ <- log (log_name k tag) v ;;
      log_loop rest tag
  end.

Definition step (self : FewShotLearner) (batch : Support * pydict T)
    (batch_idx : Z) (tag : string) : Lg (pydict V) :=
  let (support, query) := batch in

  logits <- lcall (protonet self support query) ;;
  target <- getitem query "target" ;;
  loss_value <- lcall (loss self logits target) ;;

  let output := [("loss"%string, loss_value)] in
  output <- metrics_loop (metrics self) logits query output ;;

  _ <- log_loop output tag ;;
  lret output.

Definition training_step (self : FewShotLearner)
    (batch : Support * pydict T) (batch_idx : Z) : Lg (pydict V) :=
  step self batch batch_idx "train".

Definition validation_step (self : FewShotLearner)
    (batch : Support * pydict T) (batch_idx : Z) : Lg (pydict V) :=
  step self batch batch_idx "val".

Definition test_step (self : FewShotLearner)
    (batch : Support * pydict T) (batch_idx : Z) : Lg (pydict V) :=
  step self batch batch_idx "test".

(** The items of [output] as [log_loop] names them. *)
Definition logged_items (output : pydict V) (tag : string)
  : list (string * V) :=
  map (fun kv => (log_name (fst kv) tag, snd kv)) output.

End Learner.

(** The arguments of [train], and their defaults. *)
Record TrainArgs : Type := mkTrainArgs {
  arg_sample_rate : Z;
  arg_n_way : Z;
  arg_n_support : Z;
  arg_n_query : Z;
  arg_n_train_episodes : Z;
  arg_n_val_episodes : Z;
  arg_num_workers : Z
}.

Definition train_defaults : TrainArgs :=
  mkTrainArgs 16000 5 5 20 100000 100 10.

(** The objects [train] builds from classes of [music_fsl.data] and of
    torch, which are not among the sources: each is the record of the
    arguments it is built with. *)
Record TinySOL : Type := mkTinySOL {
  instruments : list string;
  tinysol_sample_rate : Z
}.

Record EpisodeDataset : Type := mkEpisodeDataset {
  dataset : TinySOL;
  n_way : Z;
  n_support : Z;
  n_query : Z;
  n_episodes : Z
}.

Record DataLoader : Type := mkDataLoader {
  loader_dataset : EpisodeDataset;
  batch_size : option Z;
  num_workers : Z
}.

(** What [train] hands to [trainer.fit]: the backbone inside the learner
    and the two loaders. *)
Record TrainingRun (F : Type) : Type := mkTrainingRun {
  run_backbone : Backbone F;
  run_train_loader : DataLoader;
  run_val_loader : DataLoader
}.

Definition train {F : Type} (init : nat -> BlockInit F) (args : TrainArgs)
  : TrainingRun F :=
  let train_data := mkTinySOL TRAIN_INSTRUMENTS (arg_sample_rate args) in
  let val_data := mkTinySOL TEST_INSTRUMENTS (arg_sample_rate args) in
  let train_episodes :=
    mkEpisodeDataset train_data (arg_n_way args) (arg_n_support args)
                     (arg_n_query args) (arg_n_train_episodes args) in
  let val_episodes :=
    mkEpisodeDataset val_data (arg_n_way args) (arg_n_support args)
                     (arg_n_query args) (arg_n_val_episodes args) in
  let train_loader := mkDataLoader train_episodes None (arg_num_workers args) in
  let val_loader := mkDataLoader val_episodes None (arg_num_workers args) in
  let backbone := Backbone_init (arg_sample_rate args) init in
  mkTrainingRun backbone train_loader val_loader.

End Train.

(** ** More concrete inputs *)

(** A spectrogram-like batch with two channels, which the first block,
    built for one, refuses. *)
Definition example_two_channels : Tensor Z :=
  mkTensor [4; 2; 64; 81] (zeros 41472).

(** No clip at all, and a spectrogram-like batch with no mel bin. *)
Definition example_no_clips : Tensor Z := mkTensor [0; 1; 16000] [].
Definition example_no_bins : Tensor Z := mkTensor [4; 1; 0; 81] [].

(** A feature map of one clip and two pooled frames, whose row of channel
    [c] holds [c] and [c + 2]. *)
Definition example_feature_map : Tensor Z :=
  mkTensor [1; 512; 1; 2]
           (flat_map (fun c => [Z.of_nat c; (Z.of_nat c + 2)%Z]) (seq 0 512)).

(** ** Concrete inputs for [train.py] *)

(** A learner whose network returns the logits 0 on every episode, whose
    loss is 3 and whose accuracy is 1; a query with its target, and one
    without. *)
Definition example_learner : Train.FewShotLearner unit nat nat Z :=
  Train.FewShotLearner_init (fun _ _ => Ok 3%Z) (fun _ _ => Ok 1%Z)
                            (fun _ _ => Ok 0%nat) (1 # 1000).

Definition example_query : Train.pydict nat :=
  [("audio", 0); ("target", 1)]%string%nat.

Definition example_query_no_target : Train.pydict nat :=
  [("audio", 0)]%string%nat.

(** * Properties *)

Section Facts.

Context {F : Type} {K : TorchKernels F}.

Implicit Types (st : Store F) (x y feat : Tensor F).
Implicit Types (init : nat -> BlockInit F) (blk : Backbone F -> ConvBlock F).

Local Notation "x <- c ;; k" := (bind c (fun x => k))
  (at level 61, c at next level, right associativity).

(** ** Running the monad *)

Lemma bind_ok {A B : Type} (c : M F A) (k : A -> M F B) st a st' :
  c st = (Ok a, st') -> bind c k st = k a st'.
Proof. intros H. unfold bind. now rewrite H. Qed.

Lemma bind_raise {A B : Type} (c : M F A) (k : A -> M F B) st e st' :
  c st = (Raise e, st') -> bind c k st = (Raise e, st').
Proof. intros H. unfold bind. now rewrite H. Qed.

Lemma logged_nil (st : Store F) : logged st [] = st.
Proof. destruct st. unfold logged. cbn. now rewrite app_nil_r. Qed.

Lemma logged_logged (st : Store F) e1 e2 :
  logged (logged st e1) e2 = logged st (e1 ++ e2).
Proof. unfold logged. cbn. now rewrite app_assoc. Qed.

Lemma call_ok l f x y st :
  f x = Ok y ->
  call l f x st = (Ok y, logged st [mkEvent l (shape x) (shape y)]).
Proof. intros H. unfold call. now rewrite H. Qed.

Lemma call_raise l f x e st :
  f x = Raise e -> call l f x st = (Raise e, st).
Proof. intros H. unfold call. now rewrite H. Qed.

(** ** The layer calls, run symbolically *)

Lemma Conv2d_call_same sel st x c n h w :
  sel (self st) = c -> padding c = PadSame -> stride c = 1 ->
  shape x = [n; in_channels c; h; w] ->
  h <> 0 -> w <> 0 ->
  Conv2d_call sel x st
  = (Ok (mkTensor [n; out_channels c; h; w] (conv2d_k c x)),
     logged st [mkEvent (LConv2d (in_channels c) (out_channels c)
                                 (kernel_size c) 1 PadSame)
                        [n; in_channels c; h; w]
                        [n; out_channels c; h; w]]).
Proof.
  intros Hs Hp Hst Hx Hh Hw. unfold Conv2d_call, gets, bind. rewrite Hs.
  rewrite call_ok
    with (y := mkTensor [n; out_channels c; h; w] (conv2d_k c x)).
  - rewrite Hp, Hst, Hx. reflexivity.
  - unfold Conv2d_forward, conv_out_size.
    apply N.eqb_neq in Hh, Hw.
    rewrite Hx, Hp, Hst, N.eqb_refl. cbn. rewrite Hh, Hw. reflexivity.
Qed.

Lemma Conv2d_call_empty sel st x c n h w :
  sel (self st) = c -> padding c = PadSame -> stride c = 1 ->
  shape x = [n; in_channels c; h; w] ->
  h = 0 \/ w = 0 ->
  Conv2d_call sel x st = (Raise (RuntimeError msg_conv_small), st).
Proof.
  intros Hs Hp Hst Hx Hz. unfold Conv2d_call, gets, bind. rewrite Hs.
  apply call_raise. unfold Conv2d_forward, conv_out_size.
  rewrite Hx, Hp, Hst, N.eqb_refl. cbn.
  destruct (N.eqb_spec h 0) as [_ | Hh]; [reflexivity|].
  destruct Hz as [Hz | Hz]; [contradiction|]. now rewrite Hz.
Qed.

Lemma GroupNorm_call_ok sel st x g n h w :
  sel (self st) = g ->
  shape x = [n; num_channels g; h; w] ->
  (n * num_channels g / num_groups g) * (h * (w * 1)) <> 1 ->
  GroupNorm_call sel x st
  = (Ok (mkTensor [n; num_channels g; h; w] (group_norm_k g x)),
     logged st [mkEvent (LGroupNorm (num_groups g) (num_channels g))
                        [n; num_channels g; h; w]
                        [n; num_channels g; h; w]]).
Proof.
  intros Hs Hx Hb. unfold GroupNorm_call, gets, bind. rewrite Hs.
  rewrite call_ok
    with (y := mkTensor [n; num_channels g; h; w] (group_norm_k g x)).
  - rewrite Hx. reflexivity.
  - unfold GroupNorm_forward. rewrite Hx, N.eqb_refl.
    apply N.eqb_neq in Hb. cbn [shape_numel fold_right].
    rewrite Hb. reflexivity.
Qed.

Lemma ReLU_call_ok st x :
  ReLU_call x st
  = (Ok (mkTensor (shape x) (map relu_k (data x))),
     logged st [mkEvent LReLU (shape x) (shape x)]).
Proof. reflexivity. Qed.

Lemma MaxPool2d_call_ok sel st x p n c h w :
  sel (self st) = p ->
  shape x = [n; c; h; w] ->
  h / pool_size p <> 0 -> w / pool_size p <> 0 ->
  MaxPool2d_call sel x st
  = (Ok (mkTensor [n; c; h / pool_size p; w / pool_size p]
                  (max_pool2d_k p x)),
     logged st [mkEvent (LMaxPool2d (pool_size p)) [n; c; h; w]
                        [n; c; h / pool_size p; w / pool_size p]]).
Proof.
  intros Hs Hx Hh Hw. unfold MaxPool2d_call, gets, bind. rewrite Hs.
  rewrite call_ok
    with (y := mkTensor [n; c; h / pool_size p; w / pool_size p]
                        (max_pool2d_k p x)).
  - rewrite Hx. reflexivity.
  - unfold MaxPool2d_forward. rewrite Hx.
    apply N.eqb_neq in Hh, Hw. rewrite Hh, Hw. reflexivity.
Qed.

Lemma MaxPool2d_call_small sel st x p n c h w :
  sel (self st) = p ->
  shape x = [n; c; h; w] ->
  h / pool_size p = 0 \/ w / pool_size p = 0 ->
  MaxPool2d_call sel x st = (Raise (RuntimeError msg_pool_small), st).
Proof.
  intros Hs Hx Hz. unfold MaxPool2d_call, gets, bind. rewrite Hs.
  apply call_raise. unfold MaxPool2d_forward. rewrite Hx.
  destruct Hz as [Hz | Hz]; rewrite Hz; cbn [N.eqb orb];
    [reflexivity | now rewrite orb_true_r].
Qed.

(** ** One convolutional block, run symbolically *)

Lemma ConvBlock_before_pool blk st x n c_in c_out k g p i h w :
  blk (self st) = ConvBlock_init c_in c_out k 1 PadSame g p i ->
  shape x = [n; c_in; h; w] ->
  h <> 0 -> w <> 0 ->
  (n * c_out / g) * (h * (w * 1)) <> 1 ->
  exists y,
    (x <- Conv2d_call (fun s => conv (blk s)) x ;;
     x <- GroupNorm_call (fun s => gn (blk s)) x ;;
     ReLU_call x) st
      = (Ok y, logged st (block_events_before_pool n c_in c_out k g h w))
    /\ shape y = [n; c_out; h; w].
Proof.
  intros Hb Hx Hh Hw Hg.
  eexists. split.
  - erewrite bind_ok;
      [| apply Conv2d_call_same with (c := conv (blk (self st)));
         [reflexivity | rewrite Hb; reflexivity | rewrite Hb; reflexivity
         | rewrite Hb; exact Hx | exact Hh | exact Hw ] ].
    erewrite bind_ok;
      [| apply GroupNorm_call_ok with (g := gn (blk (self st)));
         [ reflexivity | rewrite Hb; reflexivity | rewrite Hb; exact Hg ] ].
    rewrite ReLU_call_ok, !logged_logged. rewrite Hb. reflexivity.
  - reflexivity.
Qed.

Lemma ConvBlock_forward_ok blk st x n c_in c_out k g p i h w :
  blk (self st) = ConvBlock_init c_in c_out k 1 PadSame g p i ->
  shape x = [n; c_in; h; w] ->
  (n * c_out / g) * (h * (w * 1)) <> 1 ->
  h / p <> 0 -> w / p <> 0 ->
  exists y,
    ConvBlock_forward blk x st
      = (Ok y, logged st (block_events n c_in c_out k g p h w))
    /\ shape y = [n; c_out; h / p; w / p].
Proof.
  intros Hb Hx Hg Hh Hw.
  assert (Hh0 : h <> 0) by (intros ->; apply Hh; now destruct p).
  assert (Hw0 : w <> 0) by (intros ->; apply Hw; now destruct p).
  destruct (ConvBlock_before_pool blk st x Hb Hx Hh0 Hw0 Hg)
    as (y & Hrun & Hy).
  unfold bind in Hrun.
  unfold ConvBlock_forward, bind.
  destruct (Conv2d_call (fun s => conv (blk s)) x st) as [[x1|e1] st1];
    [|discriminate].
  destruct (GroupNorm_call (fun s => gn (blk s)) x1 st1) as [[x2|e2] st2];
    [|discriminate].
  rewrite Hrun.
  rewrite (@MaxPool2d_call_ok (fun s => maxpool (blk s)) _ y
             (mkMaxPool2d p) n c_out h w);
    [| cbn; rewrite Hb; reflexivity | exact Hy | exact Hh | exact Hw ].
  eexists. split.
  - unfold ret. rewrite logged_logged. reflexivity.
  - reflexivity.
Qed.

Lemma ConvBlock_forward_small blk st x n c_in c_out k g p i h w :
  blk (self st) = ConvBlock_init c_in c_out k 1 PadSame g p i ->
  shape x = [n; c_in; h; w] ->
  h <> 0 -> w <> 0 ->
  (n * c_out / g) * (h * (w * 1)) <> 1 ->
  h / p = 0 \/ w / p = 0 ->
  ConvBlock_forward blk x st
  = (Raise (RuntimeError msg_pool_small),
     logged st (block_events_before_pool n c_in c_out k g h w)).
Proof.
  intros Hb Hx Hh0 Hw0 Hg Hz.
  destruct (ConvBlock_before_pool blk st x Hb Hx Hh0 Hw0 Hg)
    as (y & Hrun & Hy).
  unfold bind in Hrun.
  unfold ConvBlock_forward, bind.
  destruct (Conv2d_call (fun s => conv (blk s)) x st) as [[x1|e1] st1];
    [|discriminate].
  destruct (GroupNorm_call (fun s => gn (blk s)) x1 st1) as [[x2|e2] st2];
    [|discriminate].
  rewrite Hrun.
  rewrite (@MaxPool2d_call_small (fun s => maxpool (blk s)) _ y
             (mkMaxPool2d p) n c_out h w);
    [reflexivity | cbn; rewrite Hb; reflexivity | exact Hy | exact Hz ].
Qed.

(** ** Arithmetic of the pooling chain *)

Ltac lia_div := zify; Z.to_euclidean_division_equations; lia.

(** [_verify_batch_size] never fires on a block whose channel count is
    four times its group count. *)
Lemma gn_batch_ok n c g hw : g <> 0 -> c = 4 * g -> n * c / g * hw <> 1.
Proof.
  intros Hg ->.
  replace (n * (4 * g)) with (n * 4 * g) by lia.
  rewrite N.div_mul by exact Hg. nia.
Qed.

Lemma pooled_frames_div s : pooled_frames s = frames s / 64.
Proof. unfold pooled_frames. lia_div. Qed.

Lemma pooled_frames_pos s : 12600 <= s <-> pooled_frames s <> 0.
Proof. unfold pooled_frames, frames. split; intros H; lia_div. Qed.

(** ** [Backbone.forward], run symbolically *)

Lemma validate_rank x st :
  ndim x <> 3%nat -> validate x st = (Raise (AssertionError msg_rank), st).
Proof.
  intros H. unfold validate. apply Nat.eqb_neq in H. rewrite H. reflexivity.
Qed.

Lemma validate_mono x st b c s :
  shape x = [b; c; s] -> c <> 1 ->
  validate x st = (Raise (AssertionError msg_mono), st).
Proof.
  intros Hx H. unfold validate, ndim, shape_item. rewrite Hx.
  apply N.eqb_neq in H. cbn. unfold bind, ret. cbn. rewrite H. reflexivity.
Qed.

Lemma validate_ok x st b s :
  shape x = [b; 1; s] -> validate x st = (Ok tt, st).
Proof.
  intros Hx. unfold validate, ndim, shape_item. rewrite Hx. reflexivity.
Qed.

Lemma rank3_shape (x : Tensor F) :
  ndim x = 3%nat -> exists b c s, shape x = [b; c; s].
Proof.
  unfold ndim. destruct (shape x) as [|b [|c [|s [|? ?]]]]; try discriminate.
  intros _. now exists b, c, s.
Qed.

Ltac case_run c :=
  let e := fresh "e" in
  let st := fresh "st" in
  destruct c as [[?|e] st]; [|reflexivity].

Lemma Backbone_forward_parts x st :
  Backbone_forward x st = bind (validate x) (fun _ => layers x) st.
Proof.
  unfold Backbone_forward, validate, layers, features, head, bind.
  case_run (assert_ (Nat.eqb (ndim x) 3) msg_rank st).
  case_run (shape_item x 1 st0).
  case_run (assert_ (a0 =? 1) msg_mono st1).
  case_run (MelSpectrogram_call melspec x st2).
  case_run (ConvBlock_forward conv1 a2 st3).
  case_run (ConvBlock_forward conv2 a3 st4).
  case_run (ConvBlock_forward conv3 a4 st5).
  case_run (ConvBlock_forward conv4 a5 st6).
  case_run (ConvBlock_forward conv5 a6 st7).
  reflexivity.
Qed.

Lemma head_ok feat st b t :
  shape feat = [b; 512; 1; t] ->
  head feat st
  = (Ok (mkTensor [b; 512] (row_means t (b * 512) (data feat))),
     logged st (head_events b t)).
Proof.
  intros Hf. unfold head.
  assert (Rm : Tensor_mean_last feat
               = Ok (mkTensor [b; 512; 1]
                       (row_means t (b * 512) (data feat)))).
  { unfold Tensor_mean_last. rewrite Hf.
    cbn [lead_dims last_dim removelast last shape_numel fold_right].
    now rewrite !N.mul_1_r. }
  erewrite bind_ok by (apply call_ok; exact Rm).
  erewrite bind_ok by (apply call_ok; reflexivity).
  erewrite bind_ok by (apply call_ok; reflexivity).
  unfold ret. rewrite !logged_logged, Hf. reflexivity.
Qed.

Section Run.

Variables (st : Store F) (rate : Z) (init : nat -> BlockInit F).
Hypothesis Hself : self st = Backbone_init rate init.

Variables (x : Tensor F) (b s : N).
Hypothesis Hx : shape x = [b; 1; s].
Hypothesis Hb1 : 1 <= b.

Lemma mel_batch_not_empty : (b * 1 =? 0) = false.
Proof. apply N.eqb_neq. lia. Qed.

Lemma melspec_call_pad :
  1 <= s -> s <= 200 ->
  MelSpectrogram_call melspec x st = (Raise (RuntimeError msg_pad), st).
Proof.
  intros Hs0 Hs. unfold MelSpectrogram_call, gets, bind. rewrite Hself.
  apply call_raise. unfold MelSpectrogram_forward. rewrite Hx. cbn.
  replace (s =? 0) with false by (symmetry; apply N.eqb_neq; lia).
  rewrite mel_batch_not_empty.
  apply N.leb_le in Hs. rewrite Hs. reflexivity.
Qed.

Lemma melspec_call_ok :
  200 < s ->
  MelSpectrogram_call melspec x st
  = (Ok (mkTensor [b; 1; 64; frames s]
                  (mel_k (MelSpectrogram_init 64 rate) x)),
     logged st [mel_event b s]).
Proof.
  intros Hs. unfold MelSpectrogram_call, gets, bind. rewrite Hself.
  rewrite call_ok
    with (y := mkTensor [b; 1; 64; frames s]
                        (mel_k (MelSpectrogram_init 64 rate) x)).
  - unfold mel_event. rewrite Hx. reflexivity.
  - unfold MelSpectrogram_forward. rewrite Hx. cbn.
    replace (s =? 0) with false by (symmetry; apply N.eqb_neq; lia).
    rewrite mel_batch_not_empty.
    apply N.leb_gt in Hs. rewrite Hs. reflexivity.
Qed.

Ltac step H := rewrite (@bind_ok _ _ _ _ _ _ _ H).

(** One block of the chain: its hypotheses are discharged from the
    configuration that [__init__] gave it. *)
Ltac run_block_last blk xn R Hxn :=
  match goal with
  | |- context [bind (ConvBlock_forward blk ?x0) _ ?st0] =>
      edestruct (@ConvBlock_forward_ok blk st0 x0) as (xn & R & Hxn)
  | |- context [ConvBlock_forward blk ?x0 ?st0] =>
      edestruct (@ConvBlock_forward_ok blk st0 x0) as (xn & R & Hxn)
  end;
  [ cbn; rewrite Hself; reflexivity
  | first [ eassumption | reflexivity ]
  | apply gn_batch_ok; [ discriminate | reflexivity ]
  | unfold frames in *; lia_div
  | unfold frames in *; lia_div
  | ].

Ltac run_block blk xn R Hxn :=
  run_block_last blk xn R Hxn; [ step R; clear R ].

Lemma features_ok :
  12600 <= s ->
  exists feat,
    features x st = (Ok feat, logged st (features_events b s))
    /\ shape feat = [b; 512; 1; pooled_frames s].
Proof.
  intros Hs.
  assert (Hm : 200 < s) by lia.
  assert (Hp : pooled_frames s <> 0) by now apply pooled_frames_pos.
  unfold pooled_frames in Hp.
  unfold features.
  step (melspec_call_ok Hm).
  run_block (@conv1 F) x1 R1 Hx1.
  run_block (@conv2 F) x2 R2 Hx2.
  run_block (@conv3 F) x3 R3 Hx3.
  run_block (@conv4 F) x4 R4 Hx4.
  run_block_last (@conv5 F) x5 R5 Hx5.
  exists x5. split; [|exact Hx5].
  rewrite R5, !logged_logged. reflexivity.
Qed.

(** A block whose pooling may fail: either the pass stops there with the
    pooling error, or the block is run. *)
Ltac block_small blk Hz :=
  eapply ConvBlock_forward_small;
  [ cbn; rewrite Hself; reflexivity
  | first [ eassumption | reflexivity ]
  | unfold frames in *; lia_div
  | unfold frames in *; lia_div
  | apply gn_batch_ok; [ discriminate | reflexivity ]
  | right; exact Hz ].

Ltac try_block blk w p xn R Hxn :=
  let Hz := fresh "Hz" in
  destruct (N.eq_dec (w / p) 0) as [Hz | Hz];
  [ erewrite bind_raise by (block_small blk Hz); reflexivity
  | run_block blk xn R Hxn ].

Lemma features_small :
  200 < s -> s < 12600 ->
  fst (features x st) = Raise (RuntimeError msg_pool_small).
Proof.
  intros Hm Hs.
  unfold features.
  step (melspec_call_ok Hm).
  try_block (@conv1 F) (frames s) 2 x1 R1 Hx1.
  try_block (@conv2 F) (frames s / 2) 2 x2 R2 Hx2.
  try_block (@conv3 F) (frames s / 2 / 2) 2 x3 R3 Hx3.
  try_block (@conv4 F) (frames s / 2 / 2 / 2) 2 x4 R4 Hx4.
  destruct (N.eq_dec (frames s / 2 / 2 / 2 / 2 / 4) 0) as [Hz5 | Hz5].
  - erewrite ConvBlock_forward_small;
      [ reflexivity
      | cbn; rewrite Hself; reflexivity
      | eassumption
      | unfold frames in *; lia_div
      | unfold frames in *; lia_div
      | apply gn_batch_ok; [ discriminate | reflexivity ]
      | right; exact Hz5 ].
  - exfalso. unfold frames in *. lia_div.
Qed.

(** The same, with the calls that completed before the pooling failed. *)
Ltac close_short :=
  unfold failing_block;
  repeat match goal with
         | |- context [if ?c <? ?d then _ else _] =>
             destruct (N.ltb_spec c d)
         end;
  try (exfalso; unfold frames in *; lia_div);
  rewrite !logged_logged; reflexivity.

Ltac try_block_logged blk w p xn R Hxn :=
  let Hz := fresh "Hz" in
  destruct (N.eq_dec (w / p) 0) as [Hz | Hz];
  [ erewrite bind_raise by (block_small blk Hz); close_short
  | run_block blk xn R Hxn ].

Lemma features_short :
  200 < s -> s < 12600 ->
  features x st
  = (Raise (RuntimeError msg_pool_small),
     logged st (firstn (4 * failing_block s) (features_events b s))).
Proof.
  intros Hm Hs.
  unfold features.
  step (melspec_call_ok Hm).
  try_block_logged (@conv1 F) (frames s) 2 x1 R1 Hx1.
  try_block_logged (@conv2 F) (frames s / 2) 2 x2 R2 Hx2.
  try_block_logged (@conv3 F) (frames s / 2 / 2) 2 x3 R3 Hx3.
  try_block_logged (@conv4 F) (frames s / 2 / 2 / 2) 2 x4 R4 Hx4.
  destruct (N.eq_dec (frames s / 2 / 2 / 2 / 2 / 4) 0) as [Hz5 | Hz5].
  - erewrite ConvBlock_forward_small;
      [
      | cbn; rewrite Hself; reflexivity
      | eassumption
      | unfold frames in *; lia_div
      | unfold frames in *; lia_div
      | apply gn_batch_ok; [ discriminate | reflexivity ]
      | right; exact Hz5 ].
    close_short.
  - exfalso. unfold frames in *. lia_div.
Qed.

Lemma features_pad :
  1 <= s -> s <= 200 ->
  features x st = (Raise (RuntimeError msg_pad), st).
Proof.
  intros Hs0 Hs. unfold features.
  now rewrite (@bind_raise _ _ _ _ _ _ _ (melspec_call_pad Hs0 Hs)).
Qed.

Lemma Backbone_forward_valid : Backbone_forward x st = layers x st.
Proof.
  rewrite Backbone_forward_parts.
  now rewrite (@bind_ok _ _ _ _ _ _ _ (@validate_ok x st b s Hx)).
Qed.

Lemma Backbone_forward_ok :
  12600 <= s ->
  exists feat,
    features x st = (Ok feat, logged st (features_events b s))
    /\ shape feat = [b; 512; 1; pooled_frames s]
    /\ Backbone_forward x st
       = (Ok (mkTensor [b; 512]
                (row_means (pooled_frames s) (b * 512) (data feat))),
          logged st (forward_events b s)).
Proof.
  intros Hs.
  destruct (features_ok Hs) as (feat & Rf & Hf).
  exists feat. split; [exact Rf|]. split; [exact Hf|].
  rewrite Backbone_forward_valid. unfold layers.
  step Rf. rewrite (@head_ok feat _ b _ Hf), logged_logged. reflexivity.
Qed.

Lemma Backbone_forward_small :
  200 < s -> s < 12600 ->
  fst (Backbone_forward x st) = Raise (RuntimeError msg_pool_small).
Proof.
  intros Hm Hs. rewrite Backbone_forward_valid. unfold layers, bind.
  pose proof (features_small Hm Hs) as H.
  destruct (features x st) as [[feat|e] st']; cbn in H |- *;
    [discriminate | exact H].
Qed.

Lemma Backbone_forward_short :
  200 < s -> s < 12600 ->
  Backbone_forward x st
  = (Raise (RuntimeError msg_pool_small),
     logged st (firstn (4 * failing_block s) (features_events b s))).
Proof.
  intros Hm Hs. rewrite Backbone_forward_valid. unfold layers.
  now rewrite (@bind_raise _ _ _ _ _ _ _ (features_short Hm Hs)).
Qed.

Lemma Backbone_forward_pad :
  1 <= s -> s <= 200 ->
  Backbone_forward x st = (Raise (RuntimeError msg_pad), st).
Proof.
  intros Hs0 Hs. rewrite Backbone_forward_valid. unfold layers.
  now rewrite (@bind_raise _ _ _ _ _ _ _ (features_pad Hs0 Hs)).
Qed.

End Run.

(** ** The outcome of [forward] as a function of the input shape *)

Lemma Backbone_forward_rank x st :
  ndim x <> 3%nat ->
  Backbone_forward x st = (Raise (AssertionError msg_rank), st).
Proof.
  intros H. rewrite Backbone_forward_parts.
  now rewrite (@bind_raise _ _ _ _ _ _ _ (@validate_rank x st H)).
Qed.

Lemma Backbone_forward_mono x st b c s :
  shape x = [b; c; s] -> c <> 1 ->
  Backbone_forward x st = (Raise (AssertionError msg_mono), st).
Proof.
  intros Hx H. rewrite Backbone_forward_parts.
  now rewrite (@bind_raise _ _ _ _ _ _ _ (@validate_mono x st b c s Hx H)).
Qed.

(** A mono batch without samples, or without clips, is refused by the
    spectrogram. *)
Lemma Backbone_forward_no_samples st rate init x b :
  self st = Backbone_init rate init ->
  shape x = [b; 1; 0] ->
  Backbone_forward x st = (Raise (RuntimeError msg_reshape), st).
Proof.
  intros Hself Hx. rewrite (@Backbone_forward_valid st x b 0 Hx).
  unfold layers, features, MelSpectrogram_call, gets.
  erewrite bind_raise; [reflexivity|].
  erewrite bind_raise; [reflexivity|].
  unfold bind. apply call_raise.
  unfold MelSpectrogram_forward. rewrite Hx, Hself. reflexivity.
Qed.

Lemma Backbone_forward_no_clips st rate init x s :
  self st = Backbone_init rate init ->
  shape x = [0; 1; s] ->
  s <> 0 ->
  Backbone_forward x st = (Raise (RuntimeError msg_empty), st).
Proof.
  intros Hself Hx Hs. rewrite (@Backbone_forward_valid st x 0 s Hx).
  unfold layers, features, MelSpectrogram_call, gets.
  erewrite bind_raise; [reflexivity|].
  erewrite bind_raise; [reflexivity|].
  unfold bind. apply call_raise.
  unfold MelSpectrogram_forward. rewrite Hx, Hself. cbn.
  apply N.eqb_neq in Hs. now rewrite Hs.
Qed.

Lemma Backbone_forward_shape st rate init x :
  self st = Backbone_init rate init ->
  result_map shape (fst (Backbone_forward x st)) = forward_shape (shape x).
Proof.
  intros Hself.
  destruct (shape x) as [|b [|c [|s [|? ?]]]] eqn:Hx;
    try (rewrite Backbone_forward_rank;
         [reflexivity | unfold ndim; rewrite Hx; discriminate]).
  unfold forward_shape.
  destruct (N.eqb_spec c 1) as [-> | Hc].
  - destruct (N.eqb_spec s 0) as [-> | Hs0].
    { now rewrite (@Backbone_forward_no_samples st rate init x b Hself Hx). }
    destruct (N.eqb_spec b 0) as [-> | Hb0].
    { now rewrite (@Backbone_forward_no_clips st rate init x s Hself Hx Hs0). }
    assert (Hb1 : 1 <= b) by lia. assert (Hs1 : 1 <= s) by lia.
    destruct (N.leb_spec s 200) as [Hs | Hs].
    + now rewrite (@Backbone_forward_pad st rate init Hself x b s Hx Hb1
                     Hs1 Hs).
    + destruct (N.ltb_spec s 12600) as [Hs' | Hs'].
      * now rewrite (@Backbone_forward_small st rate init Hself x b s Hx Hb1
                       Hs Hs').
      * destruct (@Backbone_forward_ok st rate init Hself x b s Hx Hb1 Hs')
          as (feat & _ & _ & R).
        now rewrite R.
  - now rewrite (@Backbone_forward_mono x st b c s Hx Hc).
Qed.

(** ** What a computation may depend on and may change *)

Lemma reads_only_ret {A : Type} (a : A) : reads_only (ret a : M F A).
Proof.
  intros st1 st2 _. split; [reflexivity|].
  exists []. now rewrite !logged_nil.
Qed.

Lemma reads_only_raise {A : Type} (e : exn) : reads_only (raise e : M F A).
Proof.
  intros st1 st2 _. split; [reflexivity|].
  exists []. now rewrite !logged_nil.
Qed.

Lemma reads_only_gets {A : Type} (f : Backbone F -> A) : reads_only (gets f).
Proof.
  intros st1 st2 H. split; [cbn; now rewrite H|].
  exists []. now rewrite !logged_nil.
Qed.

Lemma reads_only_call l f x : reads_only (call l f x).
Proof.
  intros st1 st2 _. unfold call. destruct (f x) as [y|e]; cbn.
  - split; [reflexivity|]. now exists [mkEvent l (shape x) (shape y)].
  - split; [reflexivity|]. exists []. now rewrite !logged_nil.
Qed.

Lemma reads_only_assert cond msg :
  reads_only (assert_ cond msg : M F unit).
Proof.
  unfold assert_. destruct cond;
    [apply reads_only_ret | apply reads_only_raise].
Qed.

Lemma reads_only_shape_item x i : reads_only (shape_item x i).
Proof.
  unfold shape_item. destruct (nth_error (shape x) i);
    [apply reads_only_ret | apply reads_only_raise].
Qed.

Lemma reads_only_bind {A B : Type} (c : M F A) (k : A -> M F B) :
  reads_only c -> (forall a, reads_only (k a)) -> reads_only (bind c k).
Proof.
  intros Hc Hk st1 st2 H.
  destruct (Hc st1 st2 H) as (Hr & evs & E1 & E2).
  unfold bind.
  destruct (c st1) as [r1 s1], (c st2) as [r2 s2]. cbn in Hr, E1, E2.
  subst r2 s1 s2.
  destruct r1 as [a|e].
  - destruct (Hk a (logged st1 evs) (logged st2 evs) H)
      as (Hr' & evs' & E1' & E2').
    split; [exact Hr'|].
    exists (evs ++ evs'). now rewrite E1', E2', !logged_logged.
  - split; [reflexivity|]. now exists evs.
Qed.

Create HintDb reads discriminated.
#[local] Hint Resolve reads_only_ret reads_only_raise reads_only_gets
  reads_only_call reads_only_assert reads_only_shape_item reads_only_bind
  : reads.
#[local] Hint Unfold MelSpectrogram_call Conv2d_call GroupNorm_call
  ReLU_call MaxPool2d_call : reads.

Lemma reads_only_ConvBlock_forward blk x :
  reads_only (ConvBlock_forward blk x).
Proof. unfold ConvBlock_forward. autounfold with reads. auto 10 with reads. Qed.

#[local] Hint Resolve reads_only_ConvBlock_forward : reads.

Lemma reads_only_Backbone_forward x : reads_only (Backbone_forward x).
Proof. unfold Backbone_forward. autounfold with reads. auto 20 with reads. Qed.

(** A pass that assigned to [self], or that drew from the generator,
    would not be [reads_only]. *)
Lemma modify_self_writes st :
  ~ reads_only (modify_self (F := F)
                  (fun m => mkBackbone (sample_rate (self st) + 1)
                              (melspec m) (conv1 m) (conv2 m) (conv3 m)
                              (conv4 m) (conv5 m))).
Proof.
  intros H. destruct (H st st eq_refl) as (_ & evs & E & _).
  apply (f_equal (fun s => sample_rate (self s))) in E. cbn in E. lia.
Qed.

Lemma draw_depends_on_generator st :
  ~ reads_only (draw (F := F)).
Proof.
  intros H.
  destruct (H st (mkStore (self st) (training st) (generator st + 1)
                    (calls st)) eq_refl) as (E & _).
  cbn in E. injection E as E. lia.
Qed.

(** ** Rows of a row-major tensor *)

Lemma chunks_length t n (l : list F) : List.length (chunks t n l) = n.
Proof.
  revert l. induction n as [|n IH]; intros l; cbn; [reflexivity|].
  now rewrite IH.
Qed.

Lemma nth_chunks t n (l : list F) i :
  (i < n)%nat ->
  nth i (chunks t n l) [] = firstn t (skipn (i * t) l).
Proof.
  revert l i. induction n as [|n IH]; intros l i Hi; [lia|].
  destruct i as [|i]; cbn [chunks nth]; [reflexivity|].
  rewrite IH by lia. rewrite skipn_skipn.
  f_equal. f_equal. lia.
Qed.

Lemma row_means_length t rows (d : list F) :
  List.length (row_means t rows d) = N.to_nat rows.
Proof. unfold row_means. now rewrite length_map, chunks_length. Qed.

Lemma nth_row_means t rows (d : list F) i :
  (i < N.to_nat rows)%nat ->
  nth i (row_means t rows d) fzero
  = fdiv (fsum (firstn (N.to_nat t) (skipn (i * N.to_nat t) d))) t.
Proof.
  intros Hi. unfold row_means.
  set (f := fun row => fdiv (fsum row) t).
  rewrite nth_indep with (d' := f [])
    by now rewrite length_map, chunks_length.
  rewrite (map_nth f). unfold f. now rewrite nth_chunks.
Qed.

(** ** Properties of [Backbone.forward] *)

Lemma is_assertion_error_map {A B : Type} (f : A -> B) (r : result A) :
  is_assertion_error (result_map f r) = is_assertion_error r.
Proof. now destruct r. Qed.

Ltac unfold_events :=
  unfold forward_events, features_events, head_events, block_events,
    block_events_before_pool, mel_event.

(** C1: for every input of shape (B, 1, S) with B >= 1 and S large enough
    to survive the pooling chain (12600 samples or more, which is 64 frames
    or more), [Backbone.forward] returns a tensor of shape (B, 512); in
    particular [Backbone(sample_rate=16000)] on a batch of shape
    (4, 1, 16000) returns a tensor of shape (4, 512). *)
Theorem Backbone_forward_output_shape :
  (forall rate init st x b s,
      self st = Backbone_init rate init ->
      shape x = [b; 1; s] ->
      1 <= b -> 12600 <= s ->
      exists y, fst (Backbone_forward x st) = Ok y /\ shape y = [b; 512])
  /\ (forall init st x,
      self st = Backbone_init 16000 init ->
      shape x = [4; 1; 16000] ->
      exists y, fst (Backbone_forward x st) = Ok y /\ shape y = [4; 512]).
Proof.
  assert (G : forall rate init st x b s,
             self st = Backbone_init rate init ->
             shape x = [b; 1; s] -> 1 <= b -> 12600 <= s ->
             exists y, fst (Backbone_forward x st) = Ok y
                       /\ shape y = [b; 512]).
  { intros rate init st x b s Hself Hx Hb Hs.
    destruct (@Backbone_forward_ok st rate init Hself x b s Hx Hb Hs)
      as (feat & _ & _ & R).
    rewrite R. eexists. split; reflexivity. }
  split.
  - intros rate init st x b s Hself Hx Hb Hs. now apply G with rate init s.
  - intros init st x Hself Hx. apply G with 16000%Z init 16000; auto; lia.
Qed.

(** C2: for every input whose rank is not 3, or whose channel axis (axis 1)
    is not 1, [Backbone.forward] raises an [AssertionError] at once: no
    layer has been called and the store is as it was, and nothing catches
    it.  For every input of rank 3 with exactly one channel both
    assertions pass, and the pass goes on with the layers. *)
Theorem Backbone_forward_rejects_bad_shape x st :
  (ndim x <> 3%nat ->
   Backbone_forward x st = (Raise (AssertionError msg_rank), st))
  /\ (ndim x = 3%nat -> nth_error (shape x) 1 <> Some 1 ->
      Backbone_forward x st = (Raise (AssertionError msg_mono), st))
  /\ (ndim x = 3%nat -> nth_error (shape x) 1 = Some 1 ->
      validate x st = (Ok tt, st)
      /\ Backbone_forward x st = layers x st
      /\ forall rate init,
           self st = Backbone_init rate init ->
           is_assertion_error (fst (Backbone_forward x st)) = false).
Proof.
  split; [|split].
  - apply Backbone_forward_rank.
  - intros Hr Hc. destruct (rank3_shape x Hr) as (b & c & s & Hx).
    apply Backbone_forward_mono with b c s; [exact Hx|].
    intros ->. apply Hc. rewrite Hx. reflexivity.
  - intros Hr Hc. destruct (rank3_shape x Hr) as (b & c & s & Hx).
    rewrite Hx in Hc. cbn in Hc. injection Hc as ->.
    split; [now apply validate_ok with b s|].
    split; [now apply Backbone_forward_valid with b s|].
    intros rate init Hself.
    rewrite <- is_assertion_error_map with (f := shape).
    rewrite (@Backbone_forward_shape st rate init x Hself), Hx. cbn.
    destruct (s =? 0); [reflexivity|].
    destruct (b =? 0); [reflexivity|].
    destruct (s <=? 200); [reflexivity|].
    destruct (s <? 12600); reflexivity.
Qed.


(** C4: the final stage of [Backbone.forward] takes the feature map that
    the fifth block returns, of shape (B, 512, 1, T), averages it over the
    time axis and squeezes.  On every feature map of that shape the result
    has rank 2 and shape (B, 512), one 512-vector per clip, whose entry
    for clip [n] and channel [c] is the sum of the T elements of that clip
    and channel, added up from zero in their order, divided by T. *)
Theorem Backbone_head_time_average :
  (forall rate init st x b s,
      self st = Backbone_init rate init ->
      shape x = [b; 1; s] ->
      1 <= b ->
      12600 <= s ->
      exists feat st',
        features x st = (Ok feat, st')
        /\ shape feat = [b; 512; 1; pooled_frames s]
        /\ 1 <= pooled_frames s
        /\ Backbone_forward x st = head feat st')
  /\ (forall feat st b t,
        shape feat = [b; 512; 1; t] ->
        1 <= b ->
        1 <= t ->
        exists y,
          head feat st = (Ok y, logged st (head_events b t))
          /\ shape y = [b; 512]
          /\ ndim y = 2%nat
          /\ List.length (data y) = N.to_nat (b * 512)
          /\ forall n c : nat,
               (n < N.to_nat b)%nat -> (c < 512)%nat ->
               nth (n * 512 + c) (data y) fzero
               = fdiv (fold_left fadd
                         (firstn (N.to_nat t)
                            (skipn ((n * 512 + c) * N.to_nat t) (data feat)))
                         fzero)
                      t).
Proof.
  split.
  - intros rate init st x b s Hself Hx Hb Hs.
    destruct (@features_ok st rate init Hself x b s Hx Hb Hs)
      as (feat & Rf & Hf).
    exists feat, (logged st (features_events b s)).
    split; [exact Rf|]. split; [exact Hf|].
    split.
    { apply pooled_frames_pos in Hs. lia. }
    rewrite (@Backbone_forward_valid st x b s Hx). unfold layers.
    now rewrite (@bind_ok _ _ _ _ _ _ _ Rf).
  - intros feat st b t Hf _ _.
    eexists. split; [apply (@head_ok feat _ b _ Hf)|].
    split; [reflexivity|]. split; [reflexivity|].
    cbn [data]. split; [apply row_means_length|].
    intros n c Hn Hc. rewrite nth_row_means; [reflexivity|].
    rewrite N2Nat.inj_mul. change (N.to_nat 512) with 512%nat. nia.
Qed.

(** C5: [Backbone.forward] never compares the sample rate of the audio
    with the rate the backbone was built with.  Whatever the two rates
    are, the outcome (the exception, or the shape returned) is a function
    of the shape of the waveform alone and is the outcome of a backbone
    built at the clip's own rate; an input of rank 3 with one channel
    never fails the validation; and a batch of at least one clip, long
    enough for the pooling chain, is embedded without any error. *)
Theorem Backbone_forward_ignores_sample_rate
    (configured : Z) init (clip : AudioClip F) st :
  self st = Backbone_init configured init ->
  result_map shape (fst (Backbone_forward (waveform clip) st))
  = forward_shape (shape (waveform clip))
  /\ (forall st',
        self st' = Backbone_init (clip_sample_rate clip) init ->
        result_map shape (fst (Backbone_forward (waveform clip) st'))
        = result_map shape (fst (Backbone_forward (waveform clip) st)))
  /\ (forall b s,
        shape (waveform clip) = [b; 1; s] ->
        is_assertion_error (fst (Backbone_forward (waveform clip) st))
        = false)
  /\ (forall b s,
        shape (waveform clip) = [b; 1; s] -> 1 <= b -> 12600 <= s ->
        exists y,
          fst (Backbone_forward (waveform clip) st) = Ok y
          /\ shape y = [b; 512]).
Proof.
  intros Hself.
  pose proof (@Backbone_forward_shape st configured init (waveform clip)
                Hself) as Hout.
  split; [exact Hout|]. split; [|split].
  - intros st' Hself'. rewrite Hout.
    apply (@Backbone_forward_shape st' (clip_sample_rate clip) init
             (waveform clip) Hself').
  - intros b s Hx.
    rewrite <- is_assertion_error_map with (f := shape).
    rewrite Hout, Hx. cbn.
    destruct (s =? 0); [reflexivity|].
    destruct (b =? 0); [reflexivity|].
    destruct (s <=? 200); [reflexivity|].
    destruct (s <? 12600); reflexivity.
  - intros b s Hx Hb Hs.
    destruct (@Backbone_forward_ok st configured init Hself (waveform clip)
                b s Hx Hb Hs) as (feat & _ & _ & R).
    rewrite R. eexists. split; reflexivity.
Qed.

(** C6: [Backbone.forward] is deterministic.  From any two stores that
    hold the same module object (the same learned parameters), whatever
    their training flag, random-generator state and call log, the same
    input gives the same result; so does a second evaluation that follows
    the first. *)
Theorem Backbone_forward_deterministic x st1 st2 :
  self st1 = self st2 ->
  fst (Backbone_forward x st1) = fst (Backbone_forward x st2)
  /\ fst (Backbone_forward x (snd (Backbone_forward x st1)))
     = fst (Backbone_forward x st1).
Proof.
  intros H.
  split; [apply (reads_only_Backbone_forward x st1 st2 H)|].
  destruct (reads_only_Backbone_forward x st1 st1 eq_refl)
    as (_ & evs & E & _).
  apply (reads_only_Backbone_forward x). rewrite E. reflexivity.
Qed.

(** C7: a forward pass never changes the module object: for every input,
    whether the pass returns or raises, the convolution weights and
    biases, the group-normalisation parameters and the stored
    [sample_rate] are afterwards what they were; the pass only adds to the
    log of calls. *)
Theorem Backbone_forward_preserves_parameters x st :
  let st' := snd (Backbone_forward x st) in
  self st' = self st
  /\ Backbone_parameters (self st') = Backbone_parameters (self st)
  /\ sample_rate (self st') = sample_rate (self st)
  /\ training st' = training st
  /\ generator st' = generator st
  /\ exists evs, calls st' = calls st ++ evs.
Proof.
  destruct (reads_only_Backbone_forward x st st eq_refl)
    as (_ & evs & E & _).
  cbv zeta. rewrite E. cbn.
  repeat split. now exists evs.
Qed.

(** C9: for every input that [Backbone.forward] accepts, the 64 mel bins
    are brought to exactly 1 by the five poolings, whose sizes multiply to
    2 * 2 * 2 * 2 * 4 = 64, the number of mel bins; so the first
    [squeeze(-1)] removes the singleton frequency axis, the second removes
    nothing, neither touches the axis of 512 channels, and the result has
    rank 2 and shape (B, 512). *)
Theorem Backbone_mel_bins_pooled_to_one rate init st x y st' :
  self st = Backbone_init rate init ->
  Backbone_forward x st = (Ok y, st') ->
  exists b s evs,
    shape x = [b; 1; s]
    /\ st' = logged st evs
    /\ n_mels (melspec (self st)) = 64
    /\ fold_right N.mul 1
         (map (fun cb => pool_size (maxpool cb)) (blocks (self st)))
       = n_mels (melspec (self st))
    /\ map (fun e => freq_axis (ev_in e)) (filter is_pool evs)
       = [64; 32; 16; 8; 4]
    /\ map (fun e => freq_axis (ev_out e)) (filter is_pool evs)
       = [32; 16; 8; 4; 1]
    /\ filter is_squeeze evs
       = [ mkEvent LSqueeze [b; 512; 1] [b; 512];
           mkEvent LSqueeze [b; 512] [b; 512] ]
    /\ shape y = [b; 512]
    /\ ndim y = 2%nat.
Proof.
  intros Hself Hrun.
  pose proof (@Backbone_forward_shape st rate init x Hself) as Hout.
  rewrite Hrun in Hout. cbn in Hout.
  destruct (shape x) as [|b [|c [|s [|? ?]]]] eqn:Hx; try discriminate.
  cbn in Hout.
  destruct (N.eqb_spec c 1) as [-> | Hc]; [|discriminate].
  destruct (N.eqb_spec s 0) as [Hs0 | Hs0]; [discriminate|].
  destruct (N.eqb_spec b 0) as [Hb0 | Hb0]; [discriminate|].
  destruct (N.leb_spec s 200) as [Hs | Hs]; [discriminate|].
  destruct (N.ltb_spec s 12600) as [Hs' | Hs']; [discriminate|].
  assert (Hb1 : 1 <= b) by lia.
  destruct (@Backbone_forward_ok st rate init Hself x b s Hx Hb1 Hs')
    as (feat & _ & _ & R).
  rewrite R in Hrun. injection Hrun as <- <-.
  exists b, s, (forward_events b s).
  split; [reflexivity|]. split; [reflexivity|].
  rewrite Hself. unfold_events.
  repeat split; reflexivity.
Qed.

(** C10: [count_parameters(model)] is the sum of the element counts of the
    parameters of the model that have [requires_grad]: it agrees with the
    count that adds [numel] for a trainable parameter and nothing for a
    frozen one, so frozen parameters never contribute. *)
Theorem count_parameters_trainable_only (parameters : list (NnParameter F)) :
  count_parameters parameters = trainable_elements parameters
  /\ count_parameters parameters
     = count_parameters (filter (fun p => requires_grad p) parameters)
  /\ (forall p rest,
        parameters = p :: rest ->
        count_parameters parameters
        = (if requires_grad p then numel (p_value p) else 0)
          + count_parameters rest)
  /\ (forallb (fun p => negb (requires_grad p)) parameters = true ->
      count_parameters parameters = 0).
Proof.
  assert (Hsum : forall l a, fold_left N.add l a = a + py_sum l).
  { induction l as [|n l IH]; intros a; cbn.
    - lia.
    - unfold py_sum. cbn. rewrite IH, (IH n). lia. }
  assert (Hcons : forall (p : NnParameter F) rest,
             count_parameters (p :: rest)
             = (if requires_grad p then numel (p_value p) else 0)
               + count_parameters rest).
  { intros p rest. unfold count_parameters. cbn [filter].
    destruct (requires_grad p); [|lia].
    cbn [map]. unfold py_sum at 1. cbn [fold_left].
    rewrite Hsum. lia. }
  assert (Hspec : forall l : list (NnParameter F),
             count_parameters l = trainable_elements l).
  { induction l as [|p l IH]; [reflexivity|].
    rewrite Hcons. cbn [trainable_elements]. now rewrite IH. }
  split; [apply Hspec|]. split; [|split].
  - unfold count_parameters. f_equal. f_equal.
    induction parameters as [|p l IH]; [reflexivity|].
    cbn. destruct (requires_grad p) eqn:Hp; [|exact IH].
    cbn. rewrite Hp. now f_equal.
  - intros p rest ->. apply Hcons.
  - intros Hall. rewrite Hspec.
    induction parameters as [|p l IH]; [reflexivity|].
    cbn in Hall. apply andb_true_iff in Hall as [Hp Hl].
    cbn [trainable_elements]. rewrite (IH Hl).
    destruct (requires_grad p); [discriminate|reflexivity].
Qed.

End Facts.

(** ** The parameter count of a constructed backbone *)

Lemma Backbone_count_parameters {F : Type} (rate : Z)
    (init : nat -> BlockInit F) :
  count_parameters (Backbone_parameters (Backbone_init rate init)) = 521408.
Proof. reflexivity. Qed.

(** ** The prototypical head *)

Section HeadFacts.

Import PrototypicalNet.
Local Open Scope Q_scope.

Variable Audio : Type.
Variable backbone : Audio -> list Q.

Lemma square_nonneg (a : Q) : 0 <= a * a.
Proof. nra. Qed.

Lemma sq_dist_nonneg u v : 0 <= sq_dist u v.
Proof.
  unfold sq_dist. revert v.
  induction u as [|a u IH]; intros [|b v]; cbn; try lra.
  specialize (IH v). pose proof (square_nonneg (a - b)). lra.
Qed.

Lemma sq_dist_same u v : Forall2 Qeq u v -> sq_dist u v == 0.
Proof.
  unfold sq_dist. induction 1 as [|a b u v Hab _ IH];
    cbn [combine map fold_right fst snd]; [reflexivity|].
  rewrite IH, Hab. ring.
Qed.

Lemma nth_prototypes n_way support c :
  (c < n_way)%nat ->
  nth c (prototypes backbone n_way support) [] = prototype backbone support c.
Proof.
  intros Hc. unfold prototypes.
  rewrite nth_indep with (d' := prototype backbone support 0)
    by now rewrite length_map, length_seq.
  rewrite (map_nth (prototype backbone support)). now rewrite seq_nth.
Qed.

(** C8: in every episode, when the embedding of a query is identical to
    the prototype of a class (the mean of the support embeddings of that
    class), the logit of that class for this query is the maximum of the
    row of the query: it is zero, the negative of a zero distance, and
    every logit is the negative of a squared distance. *)
Theorem prototype_query_logit_max n_way support query (a : Audio) c :
  (c < n_way)%nat ->
  In a query ->
  Forall2 Qeq (backbone a) (prototype backbone support c) ->
  exists row,
    In row (forward backbone n_way support query)
    /\ row = map (logit (backbone a)) (prototypes backbone n_way support)
    /\ List.length row = n_way
    /\ nth c row 0 == 0
    /\ forall c', (c' < n_way)%nat -> nth c' row 0 <= nth c row 0.
Proof.
  intros Hc Ha Hq.
  exists (map (logit (backbone a)) (prototypes backbone n_way support)).
  assert (Hnth : forall k, (k < n_way)%nat ->
             nth k (map (logit (backbone a))
                        (prototypes backbone n_way support)) 0
             = logit (backbone a) (prototype backbone support k)).
  { intros k Hk.
    rewrite nth_indep with (d' := logit (backbone a) [])
      by now unfold prototypes; rewrite !length_map, length_seq.
    rewrite (map_nth (logit (backbone a))). now rewrite nth_prototypes. }
  split.
  { unfold forward. apply in_map_iff. now exists a. }
  split; [reflexivity|].
  split; [unfold prototypes; now rewrite !length_map, length_seq|].
  assert (Hzero : logit (backbone a) (prototype backbone support c) == 0).
  { unfold logit. rewrite (sq_dist_same Hq). reflexivity. }
  split.
  - rewrite (Hnth c Hc). exact Hzero.
  - intros c' Hc'. rewrite (Hnth c' Hc'), (Hnth c Hc), Hzero.
    unfold logit.
    pose proof (sq_dist_nonneg (backbone a) (prototype backbone support c')).
    lra.
Qed.

End HeadFacts.

(** ** Concrete runs *)

(** Six frames do not survive the pooling chain: 6, 3, 1, and the third
    pooling has nothing left. *)
Example forward_6_frames :
  Backbone_forward example_6_frames example_store
  = (Raise (RuntimeError msg_pool_small),
     logged example_store
       (mel_event 1 1000
        :: block_events 1 1 32 3 8 2 64 6
        ++ block_events 1 32 64 3 16 2 32 3
        ++ block_events_before_pool 1 64 128 3 32 16 1)).
Proof. vm_compute. reflexivity. Qed.

(** A clip no longer than the reflection padding is refused by the
    short-time Fourier transform. *)
Example forward_100_samples :
  Backbone_forward example_100_samples example_store
  = (Raise (RuntimeError msg_pad), example_store).
Proof. vm_compute. reflexivity. Qed.

Example forward_stereo :
  Backbone_forward example_stereo example_store
  = (Raise (AssertionError msg_mono), example_store).
Proof. reflexivity. Qed.

(** An empty batch is refused by the reflection padding of the short-time
    Fourier transform, and a map with an empty axis by the convolution. *)
Example forward_no_clips :
  Backbone_forward example_no_clips example_store
  = (Raise (RuntimeError msg_empty), example_store).
Proof. vm_compute. reflexivity. Qed.

Example conv1_no_bins :
  ConvBlock_forward (@conv1 Z) example_no_bins example_store
  = (Raise (RuntimeError msg_conv_small), example_store).
Proof. vm_compute. reflexivity. Qed.

(** The shortest clip that is embedded: 64 frames, pooled to one. *)
Example forward_12600_samples :
  result_map shape (fst (Backbone_forward example_short example_store))
  = Ok [1; 512]
  /\ pooled_frames 12600 = 1
  /\ pooled_frames 12599 = 0.
Proof. vm_compute. repeat split; reflexivity. Qed.

(** ** The properties at concrete inputs *)

Lemma Backbone_forward_output_shape_witness :
  (self example_store = Backbone_init 16000 zero_init
   /\ shape example_batch = [4; 1; 16000]
   /\ 1 <= 4 /\ 12600 <= 16000)
  /\ exists y,
       fst (Backbone_forward example_batch example_store) = Ok y
       /\ shape y = [4; 512].
Proof.
  split.
  - repeat split; discriminate.
  - apply (proj1 (@Backbone_forward_output_shape Z zero_kernels)
             16000%Z zero_init example_store example_batch 4 16000);
      [reflexivity | reflexivity | discriminate | discriminate].
Defined.

Lemma Backbone_forward_rejects_bad_shape_witness :
  (ndim example_flat <> 3%nat
   /\ Backbone_forward example_flat example_store
      = (Raise (AssertionError msg_rank), example_store))
  /\ (ndim example_stereo = 3%nat
      /\ nth_error (shape example_stereo) 1 <> Some 1
      /\ Backbone_forward example_stereo example_store
         = (Raise (AssertionError msg_mono), example_store))
  /\ (ndim example_batch = 3%nat
      /\ nth_error (shape example_batch) 1 = Some 1
      /\ validate example_batch example_store = (Ok tt, example_store)).
Proof.
  split; [|split].
  - split; [discriminate|].
    apply (proj1 (@Backbone_forward_rejects_bad_shape Z zero_kernels
                    example_flat example_store)).
    discriminate.
  - split; [reflexivity|]. split; [discriminate|].
    apply (proj1 (proj2 (@Backbone_forward_rejects_bad_shape Z zero_kernels
                           example_stereo example_store)));
      [reflexivity | discriminate].
  - split; [reflexivity|]. split; [reflexivity|].
    apply (proj2 (proj2 (@Backbone_forward_rejects_bad_shape Z zero_kernels
                           example_batch example_store)));
      reflexivity.
Defined.


Lemma Backbone_head_time_average_witness :
  (self example_store = Backbone_init 16000 zero_init
   /\ shape example_batch = [4; 1; 16000] /\ 1 <= 4 /\ 12600 <= 16000)
  /\ (exists feat st',
        features example_batch example_store = (Ok feat, st')
        /\ Backbone_forward example_batch example_store = head feat st')
  /\ (shape example_feature_map = [1; 512; 1; 2] /\ 1 <= 1 /\ 1 <= 2)
  /\ exists y,
       head example_feature_map example_store
       = (Ok y, logged example_store (head_events 1 2))
       /\ shape y = [1; 512]
       /\ nth 3 (data y) 0%Z = 4%Z
       /\ nth 511 (data y) 0%Z = 512%Z.
Proof.
  split; [repeat split; discriminate|].
  split.
  - destruct (proj1 (@Backbone_head_time_average Z zero_kernels)
                16000%Z zero_init example_store example_batch 4 16000
                eq_refl eq_refl ltac:(discriminate) ltac:(discriminate))
      as (feat & st' & Hfeat & _ & _ & Hfwd).
    exists feat, st'. split; [exact Hfeat | exact Hfwd].
  - split; [repeat split; discriminate|].
    destruct (proj2 (@Backbone_head_time_average Z zero_kernels)
                example_feature_map example_store 1 2
                eq_refl ltac:(discriminate) ltac:(discriminate))
      as (y & Hhead & Hshape & _ & _ & Hmean).
    exists y. split; [exact Hhead|]. split; [exact Hshape|].
    assert (Hclip : (0 < N.to_nat 1)%nat) by (cbn; lia).
    split.
    + refine (eq_trans (Hmean 0%nat 3%nat Hclip ltac:(lia)) _).
      vm_compute. reflexivity.
    + refine (eq_trans (Hmean 0%nat 511%nat Hclip ltac:(lia)) _).
      vm_compute. reflexivity.
Defined.

Lemma Backbone_forward_ignores_sample_rate_witness :
  (self example_store = Backbone_init 16000 zero_init
   /\ clip_sample_rate example_clip = 44100%Z)
  /\ result_map shape (fst (Backbone_forward (waveform example_clip)
                                             example_store))
     = Ok [4; 512].
Proof.
  split.
  - split; reflexivity.
  - apply (proj1 (@Backbone_forward_ignores_sample_rate Z zero_kernels
                    16000%Z zero_init example_clip example_store eq_refl)).
Defined.

Lemma Backbone_forward_deterministic_witness :
  (self example_store = self example_store_later
   /\ example_store <> example_store_later)
  /\ fst (Backbone_forward example_batch example_store)
     = fst (Backbone_forward example_batch example_store_later).
Proof.
  split.
  - split; [reflexivity | discriminate].
  - apply (proj1 (@Backbone_forward_deterministic Z zero_kernels
                    example_batch example_store example_store_later
                    eq_refl)).
Defined.

Lemma Backbone_mel_bins_pooled_to_one_witness :
  exists y st',
    self example_store = Backbone_init 16000 zero_init
    /\ Backbone_forward example_short example_store = (Ok y, st')
    /\ shape y = [1; 512]
    /\ ndim y = 2%nat.
Proof.
  exists (mkTensor [1; 512]
            (row_means 1 512
               (data (match fst (features example_short example_store) with
                      | Ok feat => feat
                      | Raise _ => example_short
                      end)))),
         (logged example_store (forward_events 1 12600)).
  assert (Hrun : Backbone_forward example_short example_store
                 = (Ok (mkTensor [1; 512]
                          (row_means 1 512
                             (data (match fst (features example_short
                                                        example_store) with
                                    | Ok feat => feat
                                    | Raise _ => example_short
                                    end)))),
                    logged example_store (forward_events 1 12600))).
  { vm_compute. reflexivity. }
  split; [reflexivity|]. split; [exact Hrun|].
  destruct (@Backbone_mel_bins_pooled_to_one Z zero_kernels 16000%Z zero_init
              example_store example_short _ _ eq_refl Hrun)
    as (b & s & evs & _ & _ & _ & _ & _ & _ & _ & Hshape & Hrank).
  split; [reflexivity | exact Hrank].
Defined.

Lemma count_parameters_trainable_only_witness :
  count_parameters example_parameters = 6
  /\ trainable_elements example_parameters = 6.
Proof.
  split; [reflexivity|].
  rewrite <- (proj1 (count_parameters_trainable_only example_parameters)).
  reflexivity.
Defined.

Lemma prototype_query_logit_max_witness :
  ((0 < 2)%nat
   /\ In 3%nat [3%nat]
   /\ Forall2 Qeq (example_backbone 3)
                  (PrototypicalNet.prototype example_backbone
                     example_support 0))
  /\ exists row,
       In row (PrototypicalNet.forward example_backbone 2 example_support
                 [3%nat])
       /\ (forall c', (c' < 2)%nat -> (nth c' row 0 <= nth 0%nat row 0)%Q).
Proof.
  assert (H1 : (0 < 2)%nat) by (repeat constructor).
  assert (H2 : In 3%nat [3%nat]) by (left; reflexivity).
  assert (H3 : Forall2 Qeq (example_backbone 3)
                 (PrototypicalNet.prototype example_backbone
                    example_support 0)).
  { repeat constructor. }
  split; [repeat split; assumption|].
  destruct (@prototype_query_logit_max nat example_backbone 2
              example_support [3%nat] 3%nat 0%nat H1 H2 H3)
    as (row & Hin & _ & _ & _ & Hmax).
  exists row. split; [exact Hin | exact Hmax].
Defined.

(** * More of [backbone.py] *)

Section MoreFacts.

Context {F : Type} {K : TorchKernels F}.

Implicit Types (st : Store F) (x y feat : Tensor F).
Implicit Types (init : nat -> BlockInit F) (blk : Backbone F -> ConvBlock F).

(** X1: a constructed [Backbone] returns from [forward] exactly on the
    inputs of shape (B, 1, S) with at least one clip, B >= 1, and
    S >= 12600 samples, and what it returns then has shape (B, 512) with
    the batch size of the input. *)
Theorem Backbone_forward_returns_iff rate init st x :
  self st = Backbone_init rate init ->
  ((exists y, fst (Backbone_forward x st) = Ok y)
   <-> exists b s, shape x = [b; 1; s] /\ 1 <= b /\ 12600 <= s)
  /\ forall y,
       fst (Backbone_forward x st) = Ok y ->
       exists b, nth_error (shape x) 0 = Some b /\ shape y = [b; 512].
Proof.
  intros Hself.
  pose proof (@Backbone_forward_shape F K st rate init x Hself) as Hout.
  assert (Hinv : forall y,
             fst (Backbone_forward x st) = Ok y ->
             exists b s, shape x = [b; 1; s] /\ 1 <= b /\ 12600 <= s
                         /\ shape y = [b; 512]).
  { intros y Hy. rewrite Hy in Hout. cbn in Hout.
    destruct (shape x) as [|b [|c [|s [|? ?]]]]; try discriminate.
    cbn in Hout.
    destruct (N.eqb_spec c 1) as [-> | Hc]; [|discriminate].
    destruct (N.eqb_spec s 0); [discriminate|].
    destruct (N.eqb_spec b 0); [discriminate|].
    destruct (N.leb_spec s 200); [discriminate|].
    destruct (N.ltb_spec s 12600); [discriminate|].
    injection Hout as Hy'. exists b, s. repeat split; [lia | assumption..]. }
  split; [split|].
  - intros (y & Hy). destruct (Hinv y Hy) as (b & s & Hx & Hb & Hs & _).
    now exists b, s.
  - intros (b & s & Hx & Hb & Hs).
    destruct (@Backbone_forward_ok F K st rate init Hself x b s Hx Hb Hs)
      as (feat & _ & _ & R).
    rewrite R. now eexists.
  - intros y Hy. destruct (Hinv y Hy) as (b & s & Hx & _ & _ & Hshape).
    exists b. rewrite Hx. now split.
Qed.

(** X2: on a mono batch of at least one clip that is too short the
    validation passes and the failure comes late.  With 1 to 200 samples
    the spectrogram refuses the clip and no layer has completed; with
    more, but fewer than 12600, the spectrogram and the first block
    complete and the pass stops with "Output size is too small" in the
    max-pooling of one of the blocks 2 to 5, after exactly the calls of a
    full pass that precede that pooling. *)
Theorem Backbone_forward_short_clip rate init st x b s :
  self st = Backbone_init rate init ->
  shape x = [b; 1; s] ->
  1 <= b ->
  1 <= s ->
  s < 12600 ->
  (s <= 200 ->
   Backbone_forward x st = (Raise (RuntimeError msg_pad), st))
  /\ (200 < s ->
      Backbone_forward x st
      = (Raise (RuntimeError msg_pool_small),
         logged st (firstn (4 * failing_block s) (features_events b s)))
      /\ (2 <= failing_block s <= 5)%nat
      /\ List.length (firstn (4 * failing_block s) (features_events b s))
         = (4 * failing_block s)%nat
      /\ exists rest,
           firstn (4 * failing_block s) (features_events b s)
           = mel_event b s :: block_events b 1 32 3 8 2 64 (frames s)
               ++ rest).
Proof.
  intros Hself Hx Hb Hs0 Hs. split.
  - intros Hp. now apply Backbone_forward_pad with rate init b s.
  - intros Hm. split.
    + now apply Backbone_forward_short with rate init.
    + unfold failing_block.
      destruct (frames s <? 4); [|destruct (frames s <? 8);
                                  [|destruct (frames s <? 16)]];
        (split; [lia|]); (split; [reflexivity|]);
        unfold features_events; cbn;
        eexists; reflexivity.
Qed.

(** X3: what [ConvBlock.forward] does with a batch of shape
    (n, c, h, w) of at least one image, for a block of stride 1 and 'same'
    padding whose sizes are positive and whose number of groups divides
    its output channels.  When [c] is not the block's [in_channels], or
    when [h] or [w] is 0, the convolution raises and no call completes.
    Otherwise, the normalisation having more than one value to normalise,
    the block either returns shape (n, out_channels, h // p, w // p) after
    its four calls, or, when a pooled size would be zero, raises "Output
    size is too small" after the first three. *)
Theorem ConvBlock_forward_outcome blk st x c_in c_out k g p i n c h w :
  blk (self st) = ConvBlock_init c_in c_out k 1 PadSame g p i ->
  shape x = [n; c; h; w] ->
  1 <= c_in /\ 1 <= c_out /\ 1 <= k /\ 1 <= p ->
  1 <= g /\ c_out mod g = 0 ->
  1 <= n ->
  (c <> c_in ->
   ConvBlock_forward blk x st
   = (Raise (RuntimeError msg_conv_channels), st))
  /\ (c = c_in -> h = 0 \/ w = 0 ->
      ConvBlock_forward blk x st
      = (Raise (RuntimeError msg_conv_small), st))
  /\ (c = c_in -> 1 <= h -> 1 <= w ->
      (n * c_out / g) * (h * (w * 1)) <> 1 ->
      (h / p = 0 \/ w / p = 0 ->
       ConvBlock_forward blk x st
       = (Raise (RuntimeError msg_pool_small),
          logged st (block_events_before_pool n c_in c_out k g h w)))
      /\ (h / p <> 0 -> w / p <> 0 ->
          exists y,
            ConvBlock_forward blk x st
            = (Ok y, logged st (block_events n c_in c_out k g p h w))
            /\ shape y = [n; c_out; h / p; w / p])).
Proof.
  intros Hb Hx _ _ _. split; [|split].
  - intros Hc.
    unfold ConvBlock_forward, Conv2d_call, gets.
    erewrite bind_raise; [reflexivity|].
    unfold bind. apply call_raise.
    unfold Conv2d_forward. rewrite Hx, Hb. cbn.
    apply N.eqb_neq in Hc. now rewrite Hc.
  - intros -> Hz.
    unfold ConvBlock_forward.
    erewrite bind_raise; [reflexivity|].
    apply Conv2d_call_empty with (c := conv (blk (self st))) (n := n)
                                 (h := h) (w := w);
      [reflexivity | now rewrite Hb | now rewrite Hb | now rewrite Hb
      | exact Hz].
  - intros -> Hh Hw Hg. split.
    + intros Hz. apply ConvBlock_forward_small with p i; auto; lia.
    + intros Hh' Hw'. now apply ConvBlock_forward_ok with i.
Qed.

(** ** [count_parameters] on lists of parameters *)

Lemma count_parameters_cons (p : NnParameter F) rest :
  count_parameters (p :: rest)
  = (if requires_grad p then numel (p_value p) else 0)
    + count_parameters rest.
Proof.
  assert (Hsum : forall l a, fold_left N.add l a = a + fold_left N.add l 0).
  { induction l as [|n l IH]; intros a; cbn; [lia|].
    rewrite IH, (IH n). lia. }
  unfold count_parameters, py_sum. cbn [filter].
  destruct (requires_grad p); [|lia].
  cbn [map fold_left]. rewrite Hsum. lia.
Qed.

Lemma count_parameters_app (ps qs : list (NnParameter F)) :
  count_parameters (ps ++ qs) = count_parameters ps + count_parameters qs.
Proof.
  induction ps as [|p ps IH]; [reflexivity|].
  rewrite <- app_comm_cons, !count_parameters_cons, IH. lia.
Qed.

(** X4: the parameters [__init__] creates.  A [ConvBlock] holds
    [out * in * k * k + 3 * out] trainable elements (the convolution's
    weight and bias and the two vectors of the normalisation), and a
    [Backbone], whatever its sample rate and initial values, has 20
    parameter tensors, all trainable, of 521408 elements in all: the mel
    spectrogram contributes none. *)
Theorem Backbone_parameter_count :
  (forall c_in c_out k s p g pool (i : BlockInit F),
      count_parameters
        (ConvBlock_parameters (ConvBlock_init c_in c_out k s p g pool i))
      = c_out * c_in * k * k + 3 * c_out)
  /\ (forall rate init,
        List.length (Backbone_parameters (Backbone_init rate init))
        = 20%nat
        /\ forallb (fun p => requires_grad p)
             (Backbone_parameters (Backbone_init rate init)) = true
        /\ count_parameters (Backbone_parameters (Backbone_init rate init))
           = 521408).
Proof.
  split.
  - intros c_in c_out k s p g pool i.
    unfold ConvBlock_parameters, ConvBlock_init, Conv2d_parameters,
      GroupNorm_parameters, Conv2d_init, GroupNorm_init, fresh_parameter.
    cbn [conv gn weight bias gn_weight gn_bias app].
    rewrite !count_parameters_cons. unfold numel, shape_numel.
    cbn [requires_grad p_value shape fold_right].
    change (count_parameters (@nil (NnParameter F))) with 0. lia.
  - intros rate init. repeat split.
Qed.

(** X5: [count_parameters] adds up over the parts of a model and does not
    depend on the order of [parameters()]: the count of two lists put
    together is the sum of their counts, a reordering has the same count,
    and the count of a backbone is the sum of the counts of its five
    blocks. *)
Theorem count_parameters_additive (ps qs : list (NnParameter F)) :
  count_parameters (ps ++ qs) = count_parameters ps + count_parameters qs
  /\ (forall ps', Permutation ps ps' ->
                  count_parameters ps' = count_parameters ps)
  /\ (forall m : Backbone F,
        count_parameters (Backbone_parameters m)
        = py_sum (map (fun cb => count_parameters (ConvBlock_parameters cb))
                      (blocks m))).
Proof.
  split; [apply count_parameters_app|]. split.
  - intros ps' Hperm. induction Hperm as [|p l l' _ IH|p q l|l l' l'' _ IH1 _ IH2].
    + reflexivity.
    + rewrite !count_parameters_cons, IH. reflexivity.
    + rewrite !count_parameters_cons. lia.
    + congruence.
  - intros m. unfold Backbone_parameters, blocks, py_sum.
    rewrite !count_parameters_app. cbn. lia.
Qed.

(** X6: [count_parameters] never exceeds the number of elements of all the
    parameters, and is that number when every parameter is trainable. *)
Theorem count_parameters_at_most_all (ps : list (NnParameter F)) :
  count_parameters ps <= py_sum (map (fun p => numel (p_value p)) ps)
  /\ (forallb (fun p => requires_grad p) ps = true ->
      count_parameters ps = py_sum (map (fun p => numel (p_value p)) ps)).
Proof.
  assert (Hall : forall l : list (NnParameter F),
             py_sum (map (fun p => numel (p_value p)) l)
             = count_parameters
                 (map (fun p => mkNnParameter (p_value p) true) l)).
  { intros l. unfold count_parameters. f_equal.
    induction l as [|p l IH]; [reflexivity|]. cbn. now f_equal. }
  rewrite Hall. split.
  - induction ps as [|p ps IH]; [reflexivity|].
    cbn [map]. rewrite !count_parameters_cons. cbn [requires_grad p_value].
    destruct (requires_grad p); lia.
  - intros Hgrad. induction ps as [|p ps IH]; [reflexivity|].
    cbn in Hgrad. apply andb_true_iff in Hgrad as [Hp Hps].
    cbn [map]. rewrite !count_parameters_cons, (IH Hps).
    cbn [requires_grad p_value]. now rewrite Hp.
Qed.

End MoreFacts.

(** * [train.py] *)

Section TrainFacts.

Import Train.

Variables Support T Logits V : Type.

Implicit Types (self : FewShotLearner Support T Logits V).
Implicit Types (query : pydict T) (output : pydict V).
Implicit Types (lg : list (string * V)) (tag : string).

Local Notation "x <- c ;; k" := (lbind c (fun x => k))
  (at level 61, c at next level, right associativity).

(** ** Dicts *)

Lemma dict_set_keeps {A : Type} (k k' : string) (v : A) (d : pydict A) :
  dict_get k' d <> None -> dict_get k' (dict_set k v d) <> None.
Proof.
  induction d as [|[k0 v0] d IH]; cbn; [congruence|].
  destruct (String.eqb_spec k0 k) as [-> | Hk]; cbn.
  - destruct (String.eqb k k'); [discriminate | auto].
  - destruct (String.eqb k0 k'); [discriminate | auto].
Qed.

Lemma dict_set_new {A : Type} (k : string) (v : A) (d : pydict A) :
  ~ In k (map fst d) -> dict_set k v d = d ++ [(k, v)].
Proof.
  induction d as [|[k0 v0] d IH]; cbn; [reflexivity|].
  intros Hk. destruct (String.eqb_spec k0 k) as [-> | Hne].
  - exfalso. apply Hk. now left.
  - rewrite IH; [reflexivity|]. intros Hin. apply Hk. now right.
Qed.

(** ** The two loops of [step] *)

Lemma log_loop_run (items : pydict V) tag lg :
  log_loop items tag lg = (Done tt, lg ++ logged_items items tag).
Proof.
  revert lg. induction items as [|[k v] items IH]; intros lg; cbn.
  - unfold lret. now rewrite app_nil_r.
  - unfold lbind, log. rewrite IH, <- app_assoc. reflexivity.
Qed.

Lemma metrics_loop_log ms (logits : Logits) query output lg :
  snd (metrics_loop ms logits query output lg) = lg.
Proof.
  revert output. induction ms as [|[k metric] ms IH]; intros output; cbn;
    [reflexivity|].
  unfold lbind, getitem.
  destruct (dict_get "target" query) as [t|]; cbn; [|reflexivity].
  unfold lcall. destruct (metric logits t) as [v|e]; cbn; [|reflexivity].
  apply IH.
Qed.

Lemma metrics_loop_keeps ms (logits : Logits) query output lg k out lg' :
  dict_get k output <> None ->
  metrics_loop ms logits query output lg = (Done out, lg') ->
  dict_get k out <> None.
Proof.
  revert output. induction ms as [|[k0 metric] ms IH]; intros output Hk; cbn.
  - unfold lret. intros E. injection E as <- _. exact Hk.
  - unfold lbind, getitem.
    destruct (dict_get "target" query) as [t|]; cbn; [|discriminate].
    unfold lcall. destruct (metric logits t) as [v|e]; cbn; [|discriminate].
    apply IH. now apply dict_set_keeps.
Qed.

Lemma metrics_loop_ok ms (logits : Logits) query t vals output lg :
  dict_get "target" query = Some t ->
  Forall2 (fun m v => snd m logits t = Ok v) ms vals ->
  NoDup (map fst ms) ->
  (forall k, In k (map fst ms) -> ~ In k (map fst output)) ->
  metrics_loop ms logits query output lg
  = (Done (output ++ combine (map fst ms) vals), lg).
Proof.
  intros Ht Hvals. revert output.
  induction Hvals as [|[k metric] v ms vals Hv _ IH];
    intros output Hnodup Hfresh; cbn.
  - unfold lret. now rewrite app_nil_r.
  - unfold lbind, getitem. rewrite Ht. cbn.
    cbn in Hv. rewrite Hv. cbn.
    inversion Hnodup as [|? ? Hk Hnodup']; subst.
    rewrite dict_set_new by (apply Hfresh; now left).
    rewrite IH; [now rewrite <- app_assoc | exact Hnodup' |].
    intros k' Hk'. rewrite map_app, in_app_iff. cbn.
    intros [Hin | [<- | []]].
    + revert Hin. apply Hfresh. now right.
    + contradiction.
Qed.

(** What every run of [step] does to the log. *)
Lemma step_log self support query idx tag lg :
  match step self (support, query) idx tag lg with
  | (Done out, lg') =>
      lg' = lg ++ logged_items out tag /\ dict_get "loss" out <> None
  | (Failed _, lg') => lg' = lg
  end.
Proof.
  unfold step, lbind.
  unfold lcall at 1. destruct (protonet self support query) as [logits|e];
    cbn; [|reflexivity].
  unfold getitem. destruct (dict_get "target" query) as [t|]; cbn;
    [|reflexivity].
  unfold lcall. destruct (loss self logits t) as [l|e]; cbn; [|reflexivity].
  pose proof (metrics_loop_log (metrics self) logits query
                [("loss"%string, l)] lg) as Hlog.
  pose proof (@metrics_loop_keeps (metrics self) logits query
                [("loss"%string, l)] lg "loss") as Hkeep.
  destruct (metrics_loop (metrics self) logits query [("loss"%string, l)] lg)
    as [[out|e] lg'];
    cbn in Hlog; subst lg'; [|reflexivity].
  rewrite log_loop_run. cbn. split; [reflexivity|].
  apply (Hkeep out lg); [cbn; discriminate | reflexivity].
Qed.

(** ** Names of logged values *)

Lemma list_ascii_of_append (a b : string) :
  list_ascii_of_string (a ++ b)
  = list_ascii_of_string a ++ list_ascii_of_string b.
Proof. induction a as [|c a IH]; cbn; [reflexivity | now rewrite IH]. Qed.

Lemma log_name_chars k tag :
  rev (list_ascii_of_string (log_name k tag))
  = rev (list_ascii_of_string tag)
    ++ "/"%char :: rev (list_ascii_of_string k).
Proof.
  unfold log_name. rewrite !list_ascii_of_append, !rev_app_distr.
  cbn. now rewrite <- app_assoc.
Qed.

Lemma log_name_inj k1 k2 t1 t2 :
  In t1 step_tags -> In t2 step_tags ->
  log_name k1 t1 = log_name k2 t2 -> k1 = k2 /\ t1 = t2.
Proof.
  intros H1 H2 E.
  apply (f_equal (fun n => rev (list_ascii_of_string n))) in E.
  rewrite !log_name_chars in E.
  assert (Hk : rev (list_ascii_of_string k1) = rev (list_ascii_of_string k2)
               -> k1 = k2).
  { intros Hr. apply (f_equal (@rev _)) in Hr. rewrite !rev_involutive in Hr.
    apply (f_equal string_of_list_ascii) in Hr.
    now rewrite !string_of_list_ascii_of_string in Hr. }
  cbn in H1, H2.
  destruct H1 as [<- | [<- | [<- | []]]];
    destruct H2 as [<- | [<- | [<- | []]]];
    cbn in E; try discriminate;
    (split; [apply Hk; congruence | reflexivity]).
Qed.

(** X7: what [step] returns and logs when nothing raises.  The network,
    the loss and every metric returning, the metrics having distinct names
    and none of them the name "loss", [step] returns the dict whose first
    item is the loss under "loss", followed by one item per metric in the
    order of [self.metrics], and logs these items in that order, each
    under its key followed by "/" and the tag.  The learner that
    [__init__] builds returns "loss" and "accuracy". *)
Theorem step_returns_and_logs :
  (forall self support query idx tag lg logits t l vals,
      protonet self support query = Ok logits ->
      dict_get "target" query = Some t ->
      loss self logits t = Ok l ->
      Forall2 (fun m v => snd m logits t = Ok v) (metrics self) vals ->
      NoDup (map fst (metrics self)) ->
      ~ In "loss"%string (map fst (metrics self)) ->
      let output :=
        ("loss"%string, l) :: combine (map fst (metrics self)) vals in
      step self (support, query) idx tag lg
      = (Done output, lg ++ logged_items output tag))
  /\ (forall (cross_entropy accuracy : Logits -> T -> result V)
             (net : Support -> pydict T -> result Logits) (lr : Q)
             support query idx tag lg logits t l a,
        net support query = Ok logits ->
        dict_get "target" query = Some t ->
        cross_entropy logits t = Ok l ->
        accuracy logits t = Ok a ->
        step (FewShotLearner_init (V := V) cross_entropy accuracy net lr)
             (support, query) idx tag lg
        = (Done [("loss"%string, l); ("accuracy"%string, a)],
           lg ++ [(log_name "loss" tag, l); (log_name "accuracy" tag, a)])).
Proof.
  assert (G : forall self support query idx tag lg logits t l vals,
             protonet self support query = Ok logits ->
             dict_get "target" query = Some t ->
             loss self logits t = Ok l ->
             Forall2 (fun m v => snd m logits t = Ok v) (metrics self) vals ->
             NoDup (map fst (metrics self)) ->
             ~ In "loss"%string (map fst (metrics self)) ->
             step self (support, query) idx tag lg
             = (Done (("loss"%string, l)
                      :: combine (map fst (metrics self)) vals),
                lg ++ logged_items
                        (("loss"%string, l)
                         :: combine (map fst (metrics self)) vals) tag)).
  { intros self support query idx tag lg logits t l vals
           Hnet Ht Hl Hvals Hnodup Hloss.
    unfold step, lbind. rewrite Hnet. cbn.
    unfold getitem. rewrite Ht. cbn. rewrite Hl. cbn.
    rewrite (@metrics_loop_ok (metrics self) logits query t vals
               [("loss"%string, l)] lg Ht Hvals Hnodup).
    - cbn [app]. now rewrite log_loop_run.
    - intros k Hk [<- | []]. contradiction. }
  split.
  - intros self support query idx tag lg logits t l vals
           Hnet Ht Hl Hvals Hnodup Hloss. cbv zeta.
    now apply G with logits t.
  - intros ce acc net lr support query idx tag lg logits t l a
           Hnet Ht Hl Ha.
    apply (G (FewShotLearner_init ce acc net lr) support query idx tag lg
             logits t l [a]); cbn; auto.
    + repeat constructor. intros [].
    + intros [H | []]. discriminate.
Qed.

(** X8: [step] logs all of its results or nothing.  When it returns, the
    log has grown by exactly the items of the returned dict, which still
    holds a "loss"; when it raises, the log is as it was.  An exception of
    the network is passed on, and a query without the key "target" raises
    [KeyError] once the network has returned. *)
Theorem step_logs_all_or_nothing self support query idx tag lg :
  match step self (support, query) idx tag lg with
  | (Done out, lg') =>
      lg' = lg ++ logged_items out tag /\ dict_get "loss" out <> None
  | (Failed _, lg') => lg' = lg
  end
  /\ (forall e,
        protonet self support query = Raise e ->
        step self (support, query) idx tag lg = (Failed (Raised e), lg))
  /\ (forall logits,
        protonet self support query = Ok logits ->
        dict_get "target" query = None ->
        step self (support, query) idx tag lg
        = (Failed (KeyError "target"), lg)).
Proof.
  split; [apply step_log|]. split.
  - intros e He. unfold step, lbind. now rewrite He.
  - intros logits Hnet Ht. unfold step, lbind. rewrite Hnet. cbn.
    unfold getitem. now rewrite Ht.
Qed.

(** X9: the three steps never log under the same name.  A logged name
    determines its key and its tag, so what [training_step] logs,
    what [validation_step] logs and what [test_step] logs are kept
    apart, whatever the metrics are called. *)
Theorem step_names_distinct :
  (forall k1 k2 t1 t2,
      In t1 step_tags -> In t2 step_tags ->
      log_name k1 t1 = log_name k2 t2 -> k1 = k2 /\ t1 = t2)
  /\ (forall self batch idx,
        training_step self batch idx = step self batch idx "train"
        /\ validation_step self batch idx = step self batch idx "val"
        /\ test_step self batch idx = step self batch idx "test")
  /\ (forall self b1 b2 i1 i2 t1 t2 lg1 lg2 out1 out2 lg1' lg2',
        In t1 step_tags -> In t2 step_tags -> t1 <> t2 ->
        step self b1 i1 t1 lg1 = (Done out1, lg1') ->
        step self b2 i2 t2 lg2 = (Done out2, lg2') ->
        exists new1 new2,
          lg1' = lg1 ++ new1 /\ lg2' = lg2 ++ new2
          /\ forall name, In name (map fst new1) -> ~ In name (map fst new2)).
Proof.
  split; [exact log_name_inj|]. split; [repeat split|].
  intros self [s1 q1] [s2 q2] i1 i2 t1 t2 lg1 lg2 out1 out2 lg1' lg2'
         H1 H2 Hne R1 R2.
  pose proof (step_log self s1 q1 i1 t1 lg1) as L1. rewrite R1 in L1.
  pose proof (step_log self s2 q2 i2 t2 lg2) as L2. rewrite R2 in L2.
  destruct L1 as [-> _], L2 as [-> _].
  exists (logged_items out1 t1), (logged_items out2 t2).
  split; [reflexivity|]. split; [reflexivity|].
  intros name Hin1 Hin2. unfold logged_items in Hin1, Hin2.
  rewrite map_map in Hin1, Hin2. cbn in Hin1, Hin2.
  apply in_map_iff in Hin1 as (kv1 & <- & _).
  apply in_map_iff in Hin2 as (kv2 & E & _).
  apply Hne. symmetry.
  now apply (@log_name_inj (fst kv2) (fst kv1) t2 t1 H2 H1 E).
Qed.

End TrainFacts.

(** X10: [train] draws the training episodes from [TRAIN_INSTRUMENTS] and
    the validation episodes from [TEST_INSTRUMENTS], and no instrument is
    in both lists or twice in one; the two datasets and the backbone are
    given the same sample rate, and the two episode datasets the same
    [n_way], [n_support] and [n_query].  The default [n_way] is the number
    of validation instruments. *)
Theorem train_splits_disjoint {F : Type} (init : nat -> BlockInit F)
    (args : Train.TrainArgs) :
  let run := Train.train init args in
  let train_episodes := Train.loader_dataset (Train.run_train_loader run) in
  let val_episodes := Train.loader_dataset (Train.run_val_loader run) in
  Train.instruments (Train.dataset train_episodes) = Train.TRAIN_INSTRUMENTS
  /\ Train.instruments (Train.dataset val_episodes) = Train.TEST_INSTRUMENTS
  /\ NoDup (Train.TRAIN_INSTRUMENTS ++ Train.TEST_INSTRUMENTS)
  /\ (forall name, In name Train.TRAIN_INSTRUMENTS ->
                   ~ In name Train.TEST_INSTRUMENTS)
  /\ Train.tinysol_sample_rate (Train.dataset train_episodes)
     = sample_rate (Train.run_backbone run)
  /\ Train.tinysol_sample_rate (Train.dataset val_episodes)
     = sample_rate (Train.run_backbone run)
  /\ (Train.n_way train_episodes, Train.n_support train_episodes,
      Train.n_query train_episodes)
     = (Train.n_way val_episodes, Train.n_support val_episodes,
        Train.n_query val_episodes)
  /\ Train.arg_n_way Train.train_defaults
     = Z.of_nat (List.length Train.TEST_INSTRUMENTS).
Proof.
  cbv zeta.
  assert (Hnodup : NoDup (Train.TRAIN_INSTRUMENTS ++ Train.TEST_INSTRUMENTS)).
  { unfold Train.TRAIN_INSTRUMENTS, Train.TEST_INSTRUMENTS. cbn [app].
    repeat (constructor; [cbn; intuition discriminate|]). constructor. }
  repeat split; try exact Hnodup.
  intros name Htrain Htest.
  revert Htrain Htest. unfold Train.TRAIN_INSTRUMENTS, Train.TEST_INSTRUMENTS.
  cbn. intuition (subst; discriminate).
Qed.

(** ** The further properties at concrete inputs *)

Lemma Backbone_forward_returns_iff_witness :
  self example_store = Backbone_init 16000 zero_init
  /\ ((exists y, fst (Backbone_forward example_batch example_store) = Ok y)
      <-> exists b s, shape example_batch = [b; 1; s]
                      /\ 1 <= b /\ 12600 <= s).
Proof.
  split; [reflexivity|].
  apply (proj1 (@Backbone_forward_returns_iff Z zero_kernels 16000%Z
                  zero_init example_store example_batch eq_refl)).
Defined.

Lemma Backbone_forward_short_clip_witness :
  (self example_store = Backbone_init 16000 zero_init
   /\ shape example_6_frames = [1; 1; 1000]
   /\ 1 <= 1 /\ 1 <= 1000 /\ 1000 < 12600 /\ 200 < 1000)
  /\ failing_block 1000 = 3%nat
  /\ Backbone_forward example_6_frames example_store
     = (Raise (RuntimeError msg_pool_small),
        logged example_store
          (firstn (4 * failing_block 1000) (features_events 1 1000))).
Proof.
  split; [repeat split; (reflexivity || discriminate)|].
  split; [reflexivity|].
  apply (proj2 (@Backbone_forward_short_clip Z zero_kernels 16000%Z zero_init
                  example_store example_6_frames 1 1000
                  eq_refl eq_refl ltac:(discriminate) ltac:(discriminate)
                  eq_refl)).
  reflexivity.
Defined.

Lemma ConvBlock_forward_outcome_witness :
  (conv1 (self example_store) = ConvBlock_init 1 32 3 1 PadSame 8 2
                                  (zero_init 1)
   /\ shape example_two_channels = [4; 2; 64; 81]
   /\ shape example_no_bins = [4; 1; 0; 81]
   /\ (1 <= 1 /\ 1 <= 32 /\ 1 <= 3 /\ 1 <= 2)
   /\ (1 <= 8 /\ 32 mod 8 = 0)
   /\ 1 <= 4 /\ 2 <> 1)
  /\ ConvBlock_forward (@conv1 Z) example_two_channels example_store
     = (Raise (RuntimeError msg_conv_channels), example_store)
  /\ ConvBlock_forward (@conv1 Z) example_no_bins example_store
     = (Raise (RuntimeError msg_conv_small), example_store).
Proof.
  assert (Hsizes : 1 <= 1 /\ 1 <= 32 /\ 1 <= 3 /\ 1 <= 2)
    by (repeat split; discriminate).
  assert (Hgroups : 1 <= 8 /\ 32 mod 8 = 0)
    by (split; [discriminate | reflexivity]).
  assert (Hn : 1 <= 4) by discriminate.
  split; [repeat split; discriminate|]. split.
  - apply (proj1 (@ConvBlock_forward_outcome Z zero_kernels (@conv1 Z)
                    example_store example_two_channels 1 32 3 8 2
                    (zero_init 1) 4 2 64 81 eq_refl eq_refl
                    Hsizes Hgroups Hn)).
    discriminate.
  - apply (proj1 (proj2 (@ConvBlock_forward_outcome Z zero_kernels (@conv1 Z)
                           example_store example_no_bins 1 32 3 8 2
                           (zero_init 1) 4 1 0 81 eq_refl eq_refl
                           Hsizes Hgroups Hn)));
      [reflexivity | left; reflexivity].
Defined.

Lemma step_returns_and_logs_witness :
  (Train.protonet example_learner tt example_query = Ok 0%nat
   /\ Train.dict_get "target" example_query = Some 1%nat
   /\ Train.loss example_learner 0%nat 1%nat = Ok 3%Z)
  /\ Train.training_step example_learner (tt, example_query) 0 []
     = (Train.Done [("loss"%string, 3%Z); ("accuracy"%string, 1%Z)],
        [("loss/train"%string, 3%Z); ("accuracy/train"%string, 1%Z)]).
Proof.
  split; [repeat split|].
  apply (proj2 (@step_returns_and_logs unit nat nat Z)
           (fun _ _ => Ok 3%Z) (fun _ _ => Ok 1%Z) (fun _ _ => Ok 0%nat)
           (1 # 1000) tt example_query 0%Z "train"%string []
           0%nat 1%nat 3%Z 1%Z eq_refl eq_refl eq_refl eq_refl).
Defined.

Lemma step_logs_all_or_nothing_witness :
  Train.dict_get "target" example_query_no_target = None
  /\ Train.validation_step example_learner (tt, example_query_no_target) 0
       [("loss/train"%string, 3%Z)]
     = (Train.Failed (Train.KeyError "target"), [("loss/train"%string, 3%Z)]).
Proof.
  split; [reflexivity|].
  apply (proj2 (proj2 (@step_logs_all_or_nothing unit nat nat Z
                         example_learner tt example_query_no_target 0%Z
                         "val"%string [("loss/train"%string, 3%Z)]))
           0%nat eq_refl eq_refl).
Defined.

